(** * pycoin.key.bip32: BIP0032 child key derivation

    A shallow embedding of [src/pycoin/key/bip32.py]: the two derivation
    functions [subkey_secret_exponent_chain_code_pair] and
    [subkey_public_pair_chain_code_pair], the Python library calls they make
    ([struct.pack], slicing, [%], [str.format], [logging]), and the interface
    of the curve and codec helpers they import from the rest of pycoin. *)

From Stdlib Require Import ZArith List String Ascii Bool Lia DecimalString.
From Stdlib.Strings Require Import Byte.
Import ListNotations.
Local Open Scope Z_scope.

(** ** Python data *)

(** A Python [bytes] object. *)
Definition bytes := list byte.

(** The Python values that travel as a [public_pair]: [None], an [int], or a
    tuple.  A well-formed public pair is [PyTuple [PyInt x; PyInt y]]. *)
#[warnings="-register-all"]
Inductive pyval : Type :=
| PyNone
| PyInt (n : Z)
| PyTuple (items : list pyval).

(** Exceptions, with their message text. *)
Inductive exn : Type :=
| ValueError (msg : string)
| TypeError (msg : string)
| StructError (msg : string)
| ZeroDivisionError (msg : string)
| OtherError (cls msg : string).

(** The outcome of a call that may raise. *)
Definition result (A : Type) : Type := (exn + A)%type.

(** ** Bytes and integers *)

Definition byte_of_Z (z : Z) : byte :=
  match Byte.of_N (Z.to_N (z mod 256)) with
  | Some b => b
  | None => x00
  end.

Definition Z_of_byte (b : byte) : Z := Z.of_N (Byte.to_N b).

(** The [n]-byte big-endian encoding of [z] (of [z mod 256^n], so a negative
    [z] comes out in two's complement). *)
Fixpoint be_bytes (n : nat) (z : Z) : bytes :=
  match n with
  | O => []
  | S m => byte_of_Z (Z.shiftr z (8 * Z.of_nat m)) :: be_bytes m z
  end.

(** The big-endian integer of a byte string. *)
Definition be_int (bs : bytes) : Z :=
  fold_left (fun acc b => acc * 256 + Z_of_byte b) bs 0.

(** Python slicing [l[lo:hi]] for [0 <= lo <= hi]. *)
Definition slice {A : Type} (lo hi : nat) (l : list A) : list A :=
  firstn (hi - lo) (skipn lo l).

(** [struct.pack] with the two formats the module uses: [">L"] (unsigned
    32-bit, big-endian) and [">l"] (signed 32-bit, big-endian).  A number
    outside the format's range raises [struct.error]; the text is the one
    of CPython 3 where a C [long] has 64 bits: the format's range when the
    number fits an [unsigned long] (for [">L"]) or a [long] (for [">l"]),
    and "argument out of range" when it does not. *)
Inductive pack_format : Type := fmt_BE_L | fmt_BE_l.

Definition struct_pack (fmt : pack_format) (i : Z) : result bytes :=
  match fmt with
  | fmt_BE_L =>
      if (0 <=? i) && (i <=? 4294967295)
      then inr (be_bytes 4 i)
      else if (0 <=? i) && (i <=? 18446744073709551615)
      then inl (StructError "'L' format requires 0 <= number <= 4294967295")
      else inl (StructError "argument out of range")
  | fmt_BE_l =>
      if (-2147483648 <=? i) && (i <=? 2147483647)
      then inr (be_bytes 4 (i mod 2 ^ 32))
      else if (-9223372036854775808 <=? i) && (i <=? 9223372036854775807)
      then inl (StructError
                  "'l' format requires -2147483648 <= number <= 2147483647")
      else inl (StructError "argument out of range")
  end.

(** Python's [a % b] on integers: floor remainder, [ZeroDivisionError] when
    [b] is zero. *)
Definition py_mod (a b : Z) : result Z :=
  if b =? 0 then inl (ZeroDivisionError "integer modulo by zero")
  else inr (a mod b).

(** ['{}'.format(n)] for an integer [n]. *)
Definition str_int (z : Z) : string := NilZero.string_of_int (Z.to_int z).

(** [x, y = v]: unpacking a value into two targets. *)
Definition unpack2 (v : pyval) : result (pyval * pyval) :=
  match v with
  | PyTuple [x; y] => inr (x, y)
  | PyTuple [] =>
      inl (ValueError "not enough values to unpack (expected 2, got 0)")
  | PyTuple [_] =>
      inl (ValueError "not enough values to unpack (expected 2, got 1)")
  | PyTuple _ => inl (ValueError "too many values to unpack (expected 2)")
  | PyNone => inl (TypeError "cannot unpack non-iterable NoneType object")
  | PyInt _ => inl (TypeError "cannot unpack non-iterable int object")
  end.

(** ** Logging and the exception monad *)

(** A record handed to the module's [logger]. *)
Inductive loglevel : Type := CRITICAL | ERROR | WARNING | INFO | DEBUG.

Record LogRecord : Type := { levelname : loglevel; message : string }.

(** The state a call can touch: the records the logger has received. *)
Definition logstate := list LogRecord.

(** A computation runs from a logger state to a logger state and either an
    exception or a value. *)
Definition M (A : Type) : Type := logstate -> logstate * result A.

Definition ret {A : Type} (a : A) : M A := fun s => (s, inr a).

Definition raise {A : Type} (e : exn) : M A := fun s => (s, inl e).

Definition bind {A B : Type} (c : M A) (k : A -> M B) : M B :=
  fun s =>
    match c s with
    | (s', inr a) => k a s'
    | (s', inl e) => (s', inl e)
    end.

(** A library call that may raise but does not log. *)
Definition lift {A : Type} (r : result A) : M A := fun s => (s, r).

Definition logger_critical (msg : string) : M unit :=
  fun s => (s ++ [{| levelname := CRITICAL; message := msg |}], inr tt).

Declare Scope py_scope.
Delimit Scope py_scope with py.
Notation "x <- c ;; k" := (bind c (fun x => k))
  (at level 61, c at next level, right associativity) : py_scope.
Notation "' pat <- c ;; k" := (bind c (fun x => match x with pat => k end))
  (at level 61, pat pattern, c at next level, right associativity) : py_scope.
Notation "c ;; k" := (bind c (fun _ => k))
  (at level 61, right associativity) : py_scope.
Local Open Scope py_scope.

(** The outcome and the log of a run. *)
Definition outcome {A : Type} (r : logstate * result A) : result A := snd r.
Definition log_of {A : Type} (r : logstate * result A) : logstate := fst r.

(** ** Module constants *)

Definition dquote : string := String "034"%char EmptyString.
Definition newline : string := String "010"%char EmptyString.

(** [_SUBKEY_VALIDATION_LOG_ERR_FMT] (the text after [.strip()]). *)
Definition _SUBKEY_VALIDATION_LOG_ERR_FMT : string :=
  String.concat newline
    [ "BUY A LOTTO TICKET RIGHT NOW! (And consider giving up your wallet to";
      "science!)";
      "";
      "You have stumbled across and astronomically unlikely scenario. Your HD";
      "wallet contains an invalid subkey. Having access to this information would";
      "be incredibly valuable to the Bitcoin development community.";
      "";
      "If you are inclined to help, please make sure to back up this wallet (or";
      "any outputted information) onto a USB drive and e-mail " ++ dquote
        ++ "Richard Kiss" ++ dquote;
      "<him@richardkiss.com> or " ++ dquote ++ "Matt Bogosian" ++ dquote
        ++ " <mtb19@columbia.edu> for";
      "instructions on how best to donate it without losing your bitcoins.";
      "";
      "WARNING: DO NOT SEND YOUR WALLET FILE UNLESS YOU WANT TO LOSE ALL THE";
      "BITCOINS IT CONTAINS." ]%string.

(** The record both functions log before they raise. *)
Definition critical_record : LogRecord :=
  {| levelname := CRITICAL; message := _SUBKEY_VALIDATION_LOG_ERR_FMT |}.

(** ** The imported helpers

    [bip32.py] imports the curve arithmetic ([pycoin.ecdsa]), the integer and
    point codecs ([pycoin.encoding]) and HMAC-SHA512 ([hmac], [hashlib]).
    Their code is not part of this module; the derivation functions are
    embedded over this interface. *)
Class Primitives : Type := {
  (** [ecdsa.ellipticcurve.CurveFp] and [ecdsa.Point] objects *)
  Curve : Type;
  Point : Type;
  (** [ecdsa.ellipticcurve.INFINITY] *)
  INFINITY : Point;
  (** [P == Q] *)
  Point_eqb : Point -> Point -> bool;
  (** [P + Q] *)
  Point_add : Point -> Point -> Point;
  (** [e * P] for an integer [e] *)
  Point_rmul : Z -> Point -> Point;
  (** [P.curve()], [P.order()], [P.pair()], [str(P)] *)
  Point_curve : Point -> Curve;
  Point_order : Point -> Z;
  Point_pair : Point -> pyval;
  Point_str : Point -> string;
  (** [ecdsa.Point(curve, x, y, order)]: the constructor checks its
      arguments and may raise *)
  Point_new : Curve -> pyval -> pyval -> Z -> result Point;
  (** [ecdsa.generator_secp256k1] *)
  generator_secp256k1 : Point;
  (** [ecdsa.public_pair_for_secret_exponent(generator, secret_exponent)] *)
  public_pair_for_secret_exponent : Point -> Z -> pyval;
  (** [public_pair_to_sec(public_pair, compressed=...)] *)
  public_pair_to_sec : pyval -> bool -> result bytes;
  (** [from_bytes_32(v)], [to_bytes_32(v)] *)
  from_bytes_32 : bytes -> result Z;
  to_bytes_32 : Z -> result bytes;
  (** [hmac.HMAC(key=key, msg=msg, digestmod=hashlib.sha512).digest()] *)
  hmac_sha512 : bytes -> bytes -> bytes
}.

Section BIP32.

Context {prim : Primitives}.

(** [ORDER = ecdsa.generator_secp256k1.order()] *)
Definition ORDER : Z := Point_order generator_secp256k1.

(** Lines 93 to 103 of [subkey_secret_exponent_chain_code_pair]: the index
    bytes, the HMAC message [data] of the hardened or the normal branch, and
    the digest [I64]. *)
Definition subkey_secret_I64
  (secret_exponent : Z) (chain_code_bytes : bytes) (i : Z)
  (is_hardened : bool) (public_pair : pyval) : M bytes :=
  i_as_bytes <- lift (struct_pack fmt_BE_L i) ;;
  data <-
    (if is_hardened then
       secret_bytes <- lift (to_bytes_32 secret_exponent) ;;
       ret ([x00] ++ secret_bytes ++ i_as_bytes)
     else
       let public_pair :=
         match public_pair with
         | PyNone =>
             public_pair_for_secret_exponent generator_secp256k1 secret_exponent
         | _ => public_pair
         end in
       sec <- lift (public_pair_to_sec public_pair true) ;;
       ret (sec ++ i_as_bytes)) ;;
  ret (hmac_sha512 chain_code_bytes data).

(** [subkey_secret_exponent_chain_code_pair(secret_exponent,
    chain_code_bytes, i, is_hardened, public_pair=None)]: the digest of
    lines 93 to 103, then the checks and the result of lines 104 to 113. *)
Definition subkey_secret_exponent_chain_code_pair
  (secret_exponent : Z) (chain_code_bytes : bytes) (i : Z)
  (is_hardened : bool) (public_pair : pyval) : M (Z * bytes) :=
  I64 <- subkey_secret_I64 secret_exponent chain_code_bytes i
           is_hardened public_pair ;;
  I_left_as_exponent <- lift (from_bytes_32 (firstn 32 I64)) ;;
  if ORDER <=? I_left_as_exponent then
    logger_critical _SUBKEY_VALIDATION_LOG_ERR_FMT ;;
    raise (ValueError ("bad derviation: I_L >= " ++ str_int ORDER))
  else
    new_secret_exponent <-
      lift (py_mod (I_left_as_exponent + secret_exponent) ORDER) ;;
    if new_secret_exponent =? 0 then
      logger_critical _SUBKEY_VALIDATION_LOG_ERR_FMT ;;
      raise (ValueError ("bad derviation: k_" ++ str_int i ++ " == 0"))
    else
      let new_chain_code := skipn 32 I64 in
      ret (new_secret_exponent, new_chain_code).

(** [subkey_public_pair_chain_code_pair(public_pair, chain_code_bytes, i)] *)
Definition subkey_public_pair_chain_code_pair
  (public_pair : pyval) (chain_code_bytes : bytes) (i : Z)
  : M (pyval * bytes) :=
  i_as_bytes <- lift (struct_pack fmt_BE_l i) ;;
  sec <- lift (public_pair_to_sec public_pair true) ;;
  let data := sec ++ i_as_bytes in
  let I64 := hmac_sha512 chain_code_bytes data in
  I_left_as_exponent <- lift (from_bytes_32 (firstn 32 I64)) ;;
  '(x, y) <- lift (unpack2 public_pair) ;;
  base_point <-
    lift (Point_new (Point_curve generator_secp256k1) x y ORDER) ;;
  let the_point :=
    Point_add (Point_rmul I_left_as_exponent generator_secp256k1) base_point in
  if Point_eqb the_point INFINITY then
    logger_critical _SUBKEY_VALIDATION_LOG_ERR_FMT ;;
    raise (ValueError ("bad derviation: K_" ++ str_int i ++ " == "
                         ++ Point_str the_point))
  else
    I_left_as_exponent <- lift (from_bytes_32 (firstn 32 I64)) ;;
    if ORDER <=? I_left_as_exponent then
      logger_critical _SUBKEY_VALIDATION_LOG_ERR_FMT ;;
      raise (ValueError ("bad derviation: I_L >= " ++ str_int ORDER))
    else
      let new_public_pair := Point_pair the_point in
      let new_chain_code := skipn 32 I64 in
      ret (new_public_pair, new_chain_code).

(** ** The derivation as the specification words it

    These follow the specification's text (4.1 and 4.2), not the code: the
    index as its 4-byte big-endian encoding, the secret exponent as its
    32-byte big-endian encoding, [I_L] as the big-endian integer of
    [I[0:32]], the new chain code as [I[32:64]]. *)

(** 4.1, steps 1 and 2: the HMAC message of a private derivation. *)
Definition ckd_priv_data (secret_exponent i : Z) (hardened : bool)
  : option bytes :=
  if hardened then
    Some ([x00] ++ be_bytes 32 secret_exponent ++ be_bytes 4 i)
  else
    match public_pair_to_sec
            (Point_pair (Point_rmul secret_exponent generator_secp256k1)) true
    with
    | inr sec => Some (sec ++ be_bytes 4 i)
    | inl _ => None
    end.

(** 4.1, step 3: [I = HMAC-SHA512(key = chain_code, message = data)]. *)
Definition ckd_priv_I (secret_exponent : Z) (chain_code : bytes) (i : Z)
  (hardened : bool) : option bytes :=
  option_map (hmac_sha512 chain_code) (ckd_priv_data secret_exponent i hardened).

(** 4.1, step 4: [I_L]. *)
Definition I_L (I64 : bytes) : Z := be_int (slice 0 32 I64).

(** 4.1, steps 4 and 6: the child the specification names. *)
Definition derive_private_child (secret_exponent : Z) (chain_code : bytes)
  (i : Z) (hardened : bool) : option (Z * bytes) :=
  option_map
    (fun I64 => ((I_L I64 + secret_exponent) mod ORDER, slice 32 64 I64))
    (ckd_priv_I secret_exponent chain_code i hardened).

(** 4.2: [I] of a public derivation from the pair [public_pair]. *)
Definition ckd_pub_I (public_pair : pyval) (chain_code : bytes) (i : Z)
  : option bytes :=
  match public_pair_to_sec public_pair true with
  | inr sec => Some (hmac_sha512 chain_code (sec ++ be_bytes 4 i))
  | inl _ => None
  end.

(** The curve point with the coordinates of [public_pair]. *)
Definition point_of_pair (public_pair : pyval) : result Point :=
  match unpack2 public_pair with
  | inr (x, y) => Point_new (Point_curve generator_secp256k1) x y ORDER
  | inl e => inl e
  end.

(** 4.2: the child the specification names. *)
Definition derive_public_child (public_pair : pyval) (chain_code : bytes)
  (i : Z) : option (pyval * bytes) :=
  match ckd_pub_I public_pair chain_code i, point_of_pair public_pair with
  | Some I64, inr P =>
      Some (Point_pair
              (Point_add (Point_rmul (I_L I64) generator_secp256k1) P),
            slice 32 64 I64)
  | _, _ => None
  end.

(** The two [raise] statements of [subkey_secret_exponent_chain_code_pair]
    and the one a run with the digest [I_left_as_exponent] takes. *)
Inductive raise_site : Type := site_I_L_ge_ORDER | site_k_zero.

Definition secret_raise_site (I_left_as_exponent secret_exponent : Z)
  : option raise_site :=
  if ORDER <=? I_left_as_exponent then Some site_I_L_ge_ORDER
  else
    match py_mod (I_left_as_exponent + secret_exponent) ORDER with
    | inr new_secret_exponent =>
        if new_secret_exponent =? 0 then Some site_k_zero else None
    | inl _ => None
    end.

(** ** What the derivation assumes of the imported helpers *)

(** The integer codecs are the fixed-width big-endian ones, the digest has
    64 bytes, the public pair of a secret exponent is the pair of its
    multiple of the generator, and [== INFINITY] tests for the point at
    infinity. *)
Class HelperLaws : Prop := {
  to_bytes_32_be :
    forall z, 0 <= z < 2 ^ 256 -> to_bytes_32 z = inr (be_bytes 32 z);
  from_bytes_32_be :
    forall bs, List.length bs = 32%nat -> from_bytes_32 bs = inr (be_int bs);
  hmac_sha512_length :
    forall key msg, List.length (hmac_sha512 key msg) = 64%nat;
  public_pair_for_secret_exponent_pair :
    forall e, public_pair_for_secret_exponent generator_secp256k1 e
              = Point_pair (Point_rmul e generator_secp256k1);
  Point_eqb_INFINITY :
    forall P, Point_eqb P INFINITY = true <-> P = INFINITY
}.

(** The generator spans a cyclic group of order [ORDER], and the pair of a
    finite multiple builds that multiple back. *)
Class GroupLaws : Prop := {
  rmul_zero : Point_rmul 0 generator_secp256k1 = INFINITY;
  rmul_finite :
    forall e, 0 < e < ORDER -> Point_rmul e generator_secp256k1 <> INFINITY;
  rmul_mod_ORDER :
    forall e, Point_rmul (e mod ORDER) generator_secp256k1
              = Point_rmul e generator_secp256k1;
  rmul_add :
    forall a b,
      Point_add (Point_rmul a generator_secp256k1)
                (Point_rmul b generator_secp256k1)
      = Point_rmul (a + b) generator_secp256k1;
  pair_Point_new :
    forall e, 0 < e < ORDER ->
      exists x y,
        Point_pair (Point_rmul e generator_secp256k1) = PyTuple [x; y]
        /\ Point_new (Point_curve generator_secp256k1) x y ORDER
           = inr (Point_rmul e generator_secp256k1)
}.

(** Keys fit their codecs: the order fits 32 bytes and every finite multiple
    of the generator has a compressed encoding. *)
Class KeyCodecLaws : Prop := {
  ORDER_fits : ORDER <= 2 ^ 256;
  sec_of_multiple :
    forall e, 0 < e < ORDER ->
      exists sec,
        public_pair_to_sec
          (Point_pair (Point_rmul e generator_secp256k1)) true = inr sec
}.

End BIP32.

Arguments HelperLaws prim : clear implicits.
Arguments GroupLaws prim : clear implicits.
Arguments KeyCodecLaws prim : clear implicits.

(** ** A small instance of the interface

    The curve [y^2 = x^3 + 7] of secp256k1 over the field of 13 elements: a
    group of prime order 7 generated by [(7, 5)], with the point arithmetic
    of [ecdsa.ellipticcurve], the codecs of [pycoin.encoding] and a checksum
    in place of HMAC-SHA512.  It shows that the laws above can be met and
    gives the derivation functions inputs to run on. *)
Module Tiny.

Definition p : Z := 13.
Definition a : Z := 0.
Definition b : Z := 7.
Definition n : Z := 7.

Definition point : Type := option (Z * Z).

Definition inverse_mod (x : Z) : Z := (x ^ (p - 2)) mod p.

Definition contains_point (x y : Z) : bool :=
  (y * y - (x * x * x + a * x + b)) mod p =? 0.

Definition double (P : point) : point :=
  match P with
  | None => None
  | Some (x, y) =>
      let l := ((3 * x * x + a) * inverse_mod (2 * y)) mod p in
      let x3 := (l * l - 2 * x) mod p in
      let y3 := (l * (x - x3) - y) mod p in
      Some (x3, y3)
  end.

Definition add (P Q : point) : point :=
  match P, Q with
  | _, None => P
  | None, _ => Q
  | Some (x1, y1), Some (x2, y2) =>
      if x1 =? x2 then
        if (y1 + y2) mod p =? 0 then None else double P
      else
        let l := ((y2 - y1) * inverse_mod (x2 - x1)) mod p in
        let x3 := (l * l - x1 - x2) mod p in
        let y3 := (l * (x1 - x3) - y1) mod p in
        Some (x3, y3)
  end.

(** [e * P] for a point of order [n]: [e] is reduced modulo the order. *)
Definition rmul (e : Z) (P : point) : point :=
  Nat.iter (Z.to_nat (e mod n)) (add P) None.

Definition eqb (P Q : point) : bool :=
  match P, Q with
  | None, None => true
  | Some (x1, y1), Some (x2, y2) => (x1 =? x2) && (y1 =? y2)
  | _, _ => false
  end.

Definition pair (P : point) : pyval :=
  match P with
  | None => PyTuple [PyNone; PyNone]
  | Some (x, y) => PyTuple [PyInt x; PyInt y]
  end.

Definition str (P : point) : string :=
  match P with
  | None => "infinity"
  | Some (x, y) => "(" ++ str_int x ++ "," ++ str_int y ++ ")"
  end.

Definition new (_ : unit) (x y : pyval) (_ : Z) : result point :=
  match x, y with
  | PyInt x, PyInt y =>
      if contains_point x y then inr (Some (x, y))
      else inl (OtherError "AssertionError" "")
  | _, _ => inl (TypeError "unsupported operand type(s)")
  end.

Definition G : point := Some (7, 5).

Definition sec (v : pyval) (compressed : bool) : result bytes :=
  match v with
  | PyTuple [PyInt x; PyInt y] =>
      if compressed then
        inr ((if Z.even y then x02 else x03) :: be_bytes 32 x)
      else inr (x04 :: be_bytes 32 x ++ be_bytes 32 y)
  | _ => inl (TypeError "unsupported operand type(s)")
  end.

Definition to_bytes (z : Z) : result bytes :=
  if (0 <=? z) && (z <? 2 ^ 256) then inr (be_bytes 32 z)
  else inl (OtherError "OverflowError" "int too big to convert").

Definition checksum (bs : bytes) : Z :=
  fold_left (fun acc b => acc + Z_of_byte b) bs 0.

(** 64 bytes: the checksum of the key, then the checksum of the message. *)
Definition digest (key msg : bytes) : bytes :=
  be_bytes 32 (checksum key) ++ be_bytes 32 (checksum msg).

#[export] Instance prims : Primitives := {|
  Curve := unit;
  Point := point;
  INFINITY := None;
  Point_eqb := eqb;
  Point_add := add;
  Point_rmul := rmul;
  Point_curve := fun _ => tt;
  Point_order := fun _ => n;
  Point_pair := pair;
  Point_str := str;
  Point_new := new;
  generator_secp256k1 := G;
  public_pair_for_secret_exponent := fun g e => pair (rmul e g);
  public_pair_to_sec := sec;
  from_bytes_32 := fun bs => inr (be_int bs);
  to_bytes_32 := to_bytes;
  hmac_sha512 := digest
|}.

End Tiny.

(** The module state a call reads besides its arguments is the bindings of
    the module-level names: the imported helpers, the generator and
    [ORDER].  [rebind_ORDER prim n] is the module after the assignment
    [ORDER = n]: every other name keeps its binding.  ([ORDER] is the only
    use either function makes of [generator_secp256k1.order()].) *)
Definition rebind_ORDER (prim : Primitives) (n : Z) : Primitives := {|
  Curve := @Curve prim;
  Point := @Point prim;
  INFINITY := @INFINITY prim;
  Point_eqb := @Point_eqb prim;
  Point_add := @Point_add prim;
  Point_rmul := @Point_rmul prim;
  Point_curve := @Point_curve prim;
  Point_order := fun _ => n;
  Point_pair := @Point_pair prim;
  Point_str := @Point_str prim;
  Point_new := @Point_new prim;
  generator_secp256k1 := @generator_secp256k1 prim;
  public_pair_for_secret_exponent := @public_pair_for_secret_exponent prim;
  public_pair_to_sec := @public_pair_to_sec prim;
  from_bytes_32 := @from_bytes_32 prim;
  to_bytes_32 := @to_bytes_32 prim;
  hmac_sha512 := @hmac_sha512 prim
|}.

(** * Properties *)

(** ** Bytes, packing and slices *)

Lemma be_bytes_length (n : nat) (z : Z) : List.length (be_bytes n z) = n.
Proof. induction n as [|n IH]; simpl; [reflexivity | now rewrite IH]. Qed.

Lemma Z_of_byte_range (b : byte) : 0 <= Z_of_byte b < 256.
Proof. unfold Z_of_byte. pose proof (Byte.to_N_bounded b). lia. Qed.

Lemma Z_of_byte_of_Z (z : Z) : Z_of_byte (byte_of_Z z) = z mod 256.
Proof.
  unfold Z_of_byte, byte_of_Z.
  assert (Hr : 0 <= z mod 256 < 256) by (apply Z.mod_pos_bound; lia).
  destruct (Byte.of_N (Z.to_N (z mod 256))) as [b|] eqn:E.
  - apply Byte.to_of_N in E. rewrite E. lia.
  - apply Byte.of_N_None_iff in E. lia.
Qed.

Lemma be_int_app (xs ys : bytes) :
  be_int (xs ++ ys) = be_int xs * 256 ^ Z.of_nat (List.length ys) + be_int ys.
Proof.
  unfold be_int.
  assert (shift : forall l acc,
             fold_left (fun acc b => acc * 256 + Z_of_byte b) l acc
             = acc * 256 ^ Z.of_nat (List.length l)
               + fold_left (fun acc b => acc * 256 + Z_of_byte b) l 0).
  { induction l as [|x l IH]; intros acc.
    - simpl. lia.
    - cbn [fold_left List.length]. rewrite IH. rewrite (IH (0 * 256 + _)).
      rewrite Nat2Z.inj_succ, Z.pow_succ_r by lia. lia. }
  rewrite fold_left_app. rewrite shift. reflexivity.
Qed.

(** [be_bytes] and [be_int] are the two directions of one codec. *)
Lemma be_int_be_bytes (n : nat) (z : Z) :
  be_int (be_bytes n z) = z mod 256 ^ Z.of_nat n.
Proof.
  induction n as [|n IH].
  - simpl. now rewrite Z.mod_1_r.
  - cbn [be_bytes].
    change (byte_of_Z (Z.shiftr z (8 * Z.of_nat n)) :: be_bytes n z)
      with ([byte_of_Z (Z.shiftr z (8 * Z.of_nat n))] ++ be_bytes n z).
    rewrite be_int_app, IH, be_bytes_length.
    unfold be_int at 1. cbn [fold_left]. rewrite Z_of_byte_of_Z.
    rewrite Z.shiftr_div_pow2 by lia.
    rewrite Z.pow_mul_r by lia. change (2 ^ 8) with 256.
    rewrite Nat2Z.inj_succ, Z.pow_succ_r by lia.
    set (m := 256 ^ Z.of_nat n).
    assert (Hm : 0 < m) by (apply Z.pow_pos_nonneg; lia).
    rewrite (Z.mul_comm 256 m).
    rewrite Z.rem_mul_r by lia. ring.
Qed.

Lemma struct_pack_L_range (i : Z) :
  0 <= i < 2 ^ 32 -> struct_pack fmt_BE_L i = inr (be_bytes 4 i).
Proof.
  intros Hi. unfold struct_pack.
  replace (0 <=? i) with true by (symmetry; apply Z.leb_le; lia).
  replace (i <=? 4294967295) with true by (symmetry; apply Z.leb_le; lia).
  reflexivity.
Qed.

Lemma struct_pack_l_range (i : Z) :
  0 <= i < 2 ^ 31 -> struct_pack fmt_BE_l i = inr (be_bytes 4 i).
Proof.
  intros Hi. unfold struct_pack.
  replace (-2147483648 <=? i) with true by (symmetry; apply Z.leb_le; lia).
  replace (i <=? 2147483647) with true by (symmetry; apply Z.leb_le; lia).
  rewrite Z.mod_small by lia. reflexivity.
Qed.

Lemma struct_pack_L_inr (i : Z) (bs : bytes) :
  struct_pack fmt_BE_L i = inr bs -> 0 <= i < 2 ^ 32 /\ bs = be_bytes 4 i.
Proof.
  unfold struct_pack.
  destruct ((0 <=? i) && (i <=? 4294967295)) eqn:E.
  - intros H. apply andb_true_iff in E. destruct E as [E1 E2].
    apply Z.leb_le in E1, E2. split; [lia | congruence].
  - destruct ((0 <=? i) && (i <=? 18446744073709551615)); intros H; discriminate H.
Qed.

Lemma struct_pack_l_hardened (i : Z) :
  2 ^ 31 <= i < 2 ^ 63 ->
  struct_pack fmt_BE_l i
  = inl (StructError
           "'l' format requires -2147483648 <= number <= 2147483647").
Proof.
  intros Hi. unfold struct_pack.
  replace (i <=? 2147483647) with false by (symmetry; apply Z.leb_gt; lia).
  replace (-9223372036854775808 <=? i) with true
    by (symmetry; apply Z.leb_le; lia).
  replace (i <=? 9223372036854775807) with true
    by (symmetry; apply Z.leb_le; lia).
  now rewrite andb_false_r.
Qed.

Lemma slice_0 {A : Type} (hi : nat) (l : list A) : slice 0 hi l = firstn hi l.
Proof. unfold slice. now rewrite Nat.sub_0_r. Qed.

Lemma slice_32_64 {A : Type} (l : list A) :
  List.length l = 64%nat -> slice 32 64 l = skipn 32 l.
Proof.
  intros Hl. unfold slice. apply firstn_all2. rewrite length_skipn. lia.
Qed.

(** ** The runs of the two functions, statement by statement *)

Section Runs.

Context {prim : Primitives}.

(** Lines 93 to 103 leave the logger alone. *)
Lemma secret_I64_pure (k : Z) (cc : bytes) (i : Z) (h : bool) (pp : pyval) :
  exists r, forall s, subkey_secret_I64 k cc i h pp s = (s, r).
Proof.
  unfold subkey_secret_I64, bind, lift, ret.
  destruct (struct_pack fmt_BE_L i) as [e|ib]; [now exists (inl e)|].
  destruct h.
  - destruct (to_bytes_32 k) as [e|sb]; eexists; intros s; reflexivity.
  - destruct (public_pair_to_sec _ true) as [e|sec]; eexists; intros s;
      reflexivity.
Qed.

Lemma secret_I64_normal (k : Z) (cc : bytes) (i : Z) (s : logstate) :
  0 <= i < 2 ^ 32 ->
  subkey_secret_I64 k cc i false PyNone s =
  (s, match public_pair_to_sec
              (public_pair_for_secret_exponent generator_secp256k1 k) true with
      | inl e => inl e
      | inr sec => inr (hmac_sha512 cc (sec ++ be_bytes 4 i))
      end).
Proof.
  intros Hi. unfold subkey_secret_I64, bind, lift, ret.
  rewrite (struct_pack_L_range i Hi).
  destruct (public_pair_to_sec _ true); reflexivity.
Qed.

Lemma secret_I64_hardened (k : Z) (cc : bytes) (i : Z) (pp : pyval)
  (s : logstate) :
  0 <= i < 2 ^ 32 ->
  subkey_secret_I64 k cc i true pp s =
  (s, match to_bytes_32 k with
      | inl e => inl e
      | inr sb => inr (hmac_sha512 cc ([x00] ++ sb ++ be_bytes 4 i))
      end).
Proof.
  intros Hi. unfold subkey_secret_I64, bind, lift, ret.
  rewrite (struct_pack_L_range i Hi).
  destruct (to_bytes_32 k); reflexivity.
Qed.

(** Lines 104 to 113, case by case. *)
Lemma secret_run (k : Z) (cc : bytes) (i : Z) (h : bool) (pp : pyval)
  (r : result bytes) (s : logstate) :
  subkey_secret_I64 k cc i h pp s = (s, r) ->
  subkey_secret_exponent_chain_code_pair k cc i h pp s =
  match r with
  | inl e => (s, inl e)
  | inr I64 =>
      match from_bytes_32 (firstn 32 I64) with
      | inl e => (s, inl e)
      | inr IL =>
          if ORDER <=? IL then
            (s ++ [critical_record],
             inl (ValueError ("bad derviation: I_L >= " ++ str_int ORDER)))
          else
            match py_mod (IL + k) ORDER with
            | inl e => (s, inl e)
            | inr k' =>
                if k' =? 0 then
                  (s ++ [critical_record],
                   inl (ValueError
                          ("bad derviation: k_" ++ str_int i ++ " == 0")))
                else (s, inr (k', skipn 32 I64))
            end
      end
  end.
Proof.
  intros HI. unfold subkey_secret_exponent_chain_code_pair.
  unfold bind at 1. rewrite HI. destruct r as [e|I64]; [reflexivity|].
  unfold bind, lift, ret, raise, logger_critical, critical_record.
  destruct (from_bytes_32 (firstn 32 I64)) as [e|IL]; [reflexivity|].
  destruct (ORDER <=? IL); [reflexivity|].
  destruct (py_mod (IL + k) ORDER) as [e|k']; [reflexivity|].
  destruct (k' =? 0); reflexivity.
Qed.

(** Lines 129 to 150, case by case. *)
Lemma public_run (P : pyval) (cc : bytes) (i : Z) (s : logstate) :
  subkey_public_pair_chain_code_pair P cc i s =
  match struct_pack fmt_BE_l i with
  | inl e => (s, inl e)
  | inr i_as_bytes =>
      match public_pair_to_sec P true with
      | inl e => (s, inl e)
      | inr sec =>
          let I64 := hmac_sha512 cc (sec ++ i_as_bytes) in
          match from_bytes_32 (firstn 32 I64) with
          | inl e => (s, inl e)
          | inr IL =>
              match point_of_pair P with
              | inl e => (s, inl e)
              | inr Q =>
                  let T := Point_add (Point_rmul IL generator_secp256k1) Q in
                  if Point_eqb T INFINITY then
                    (s ++ [critical_record],
                     inl (ValueError ("bad derviation: K_" ++ str_int i
                                        ++ " == " ++ Point_str T)))
                  else if ORDER <=? IL then
                    (s ++ [critical_record],
                     inl (ValueError
                            ("bad derviation: I_L >= " ++ str_int ORDER)))
                  else (s, inr (Point_pair T, skipn 32 I64))
              end
          end
      end
  end.
Proof.
  unfold subkey_public_pair_chain_code_pair, point_of_pair,
    bind, lift, ret, raise, logger_critical, critical_record.
  destruct (struct_pack fmt_BE_l i) as [e|ib]; [reflexivity|].
  destruct (public_pair_to_sec P true) as [e|sec]; [reflexivity|].
  cbv zeta.
  destruct (from_bytes_32 _) as [e|IL]; [reflexivity|].
  destruct (unpack2 P) as [e|[x y]]; [reflexivity|].
  destruct (Point_new _ x y ORDER) as [e|Q]; [reflexivity|].
  destruct (Point_eqb _ INFINITY); [reflexivity|].
  destruct (ORDER <=? IL); reflexivity.
Qed.

(** What a run appends is nothing, or the critical record followed by a
    [ValueError]. *)
Lemma secret_run_effect (k : Z) (cc : bytes) (i : Z) (h : bool) (pp : pyval) :
  exists r d,
    (forall s,
        subkey_secret_exponent_chain_code_pair k cc i h pp s = (s ++ d, r))
    /\ (d = []
        \/ (d = [critical_record] /\ exists msg, r = inl (ValueError msg))).
Proof.
  destruct (secret_I64_pure k cc i h pp) as [r0 Hr0].
  assert (Hrun := fun s => secret_run k cc i h pp r0 s (Hr0 s)).
  destruct r0 as [e|I64].
  { exists (inl e), []. split; [|now left].
    intros s. now rewrite Hrun, app_nil_r. }
  destruct (from_bytes_32 (firstn 32 I64)) as [e|IL].
  { exists (inl e), []. split; [|now left].
    intros s. now rewrite Hrun, app_nil_r. }
  destruct (ORDER <=? IL).
  { eexists; exists [critical_record]. split; [exact Hrun|].
    right. split; [reflexivity | eexists; reflexivity]. }
  destruct (py_mod (IL + k) ORDER) as [e|k'].
  { exists (inl e), []. split; [|now left].
    intros s. now rewrite Hrun, app_nil_r. }
  destruct (k' =? 0).
  { eexists; exists [critical_record]. split; [exact Hrun|].
    right. split; [reflexivity | eexists; reflexivity]. }
  exists (inr (k', skipn 32 I64)), []. split; [|now left].
  intros s. now rewrite Hrun, app_nil_r.
Qed.

Lemma public_run_effect (P : pyval) (cc : bytes) (i : Z) :
  exists r d,
    (forall s, subkey_public_pair_chain_code_pair P cc i s = (s ++ d, r))
    /\ (d = []
        \/ (d = [critical_record] /\ exists msg, r = inl (ValueError msg))).
Proof.
  assert (Hrun := public_run P cc i).
  destruct (struct_pack fmt_BE_l i) as [e|ib].
  { exists (inl e), []. split; [|now left].
    intros s. now rewrite Hrun, app_nil_r. }
  destruct (public_pair_to_sec P true) as [e|sec].
  { exists (inl e), []. split; [|now left].
    intros s. now rewrite Hrun, app_nil_r. }
  cbv zeta in Hrun.
  destruct (from_bytes_32 _) as [e|IL].
  { exists (inl e), []. split; [|now left].
    intros s. now rewrite Hrun, app_nil_r. }
  destruct (point_of_pair P) as [e|Q].
  { exists (inl e), []. split; [|now left].
    intros s. now rewrite Hrun, app_nil_r. }
  destruct (Point_eqb _ INFINITY).
  { eexists; exists [critical_record]. split; [exact Hrun|].
    right. split; [reflexivity | eexists; reflexivity]. }
  destruct (ORDER <=? IL).
  { eexists; exists [critical_record]. split; [exact Hrun|].
    right. split; [reflexivity | eexists; reflexivity]. }
  eexists; exists []. split; [|now left].
  intros s. now rewrite Hrun, app_nil_r.
Qed.

End Runs.

(** ** Child key derivation *)

Section Derivation.

Context {prim : Primitives}.

(** Both runs raise, so neither returns and the implication from a returned
    private child holds for want of one. *)
Ltac both_raise :=
  split;
  [ split; intros [r Hr]; discriminate Hr
  | intros ? ? Hr; discriminate Hr ].

(** In a group of order [ORDER] the multiples of the generator that vanish
    are the multiples by a multiple of [ORDER]. *)
Lemma multiple_is_INFINITY {GL : GroupLaws prim} (e : Z) :
  0 < ORDER ->
  Point_rmul e generator_secp256k1 = INFINITY <-> e mod ORDER = 0.
Proof.
  intros Hn. rewrite <- rmul_mod_ORDER. split.
  - intros HI. pose proof (Z.mod_pos_bound e ORDER Hn) as Hb.
    destruct (Z.eq_dec (e mod ORDER) 0) as [E|E]; [exact E|].
    exfalso. apply (rmul_finite (e mod ORDER)); [lia | exact HI].
  - intros ->. apply rmul_zero.
Qed.

(** What lines 93 to 103 compute is the [I] of the specification. *)
Lemma secret_I64_reference {HL : HelperLaws prim}
  (k : Z) (cc : bytes) (i : Z) (h : bool) (s s' : logstate) (I64 : bytes) :
  (h = true -> 0 <= k < 2 ^ 256) ->
  subkey_secret_I64 k cc i h PyNone s = (s', inr I64) ->
  ckd_priv_I k cc i h = Some I64.
Proof.
  intros Hk.
  unfold subkey_secret_I64, ckd_priv_I, ckd_priv_data, bind, lift, ret.
  destruct (struct_pack fmt_BE_L i) as [e|ib] eqn:Ep; [discriminate|].
  apply struct_pack_L_inr in Ep. destruct Ep as [_ ->].
  destruct h.
  - rewrite (to_bytes_32_be k (Hk eq_refl)).
    intros H. injection H as _ <-. reflexivity.
  - rewrite public_pair_for_secret_exponent_pair.
    destruct (public_pair_to_sec _ true) as [e|sec]; [discriminate|].
    intros H. injection H as _ <-. reflexivity.
Qed.

Lemma ckd_priv_I_length {HL : HelperLaws prim}
  (k : Z) (cc : bytes) (i : Z) (h : bool) (I64 : bytes) :
  ckd_priv_I k cc i h = Some I64 -> List.length I64 = 64%nat.
Proof.
  unfold ckd_priv_I. destruct (ckd_priv_data k i h); [|discriminate].
  intros H. injection H as <-. apply hmac_sha512_length.
Qed.

Lemma from_bytes_32_I_L {HL : HelperLaws prim} (I64 : bytes) :
  List.length I64 = 64%nat ->
  from_bytes_32 (firstn 32 I64) = inr (I_L I64).
Proof.
  intros Hl. unfold I_L. rewrite slice_0.
  apply from_bytes_32_be. rewrite length_firstn. lia.
Qed.

(** C1.  For a secret exponent in [1, ORDER - 1], any chain code and a
    non-hardened index [0 <= i < 2^31]: the public derivation from the
    public pair of the secret exponent returns exactly when the private,
    non-hardened derivation returns, and then it returns the public pair of
    the privately derived exponent together with the same chain code. *)
Theorem public_child_matches_private_child
  {HL : HelperLaws prim} {GL : GroupLaws prim}
  (secret_exponent : Z) (chain_code : bytes) (i : Z) (s : logstate) :
  0 < secret_exponent < ORDER ->
  0 <= i < 2 ^ 31 ->
  let pub :=
    subkey_public_pair_chain_code_pair
      (Point_pair (Point_rmul secret_exponent generator_secp256k1))
      chain_code i s in
  let priv :=
    subkey_secret_exponent_chain_code_pair
      secret_exponent chain_code i false PyNone s in
  ((exists r, outcome pub = inr r) <-> (exists r, outcome priv = inr r))
  /\ (forall new_secret_exponent new_chain_code,
        outcome priv = inr (new_secret_exponent, new_chain_code) ->
        outcome pub
        = inr (Point_pair
                 (Point_rmul new_secret_exponent generator_secp256k1),
               new_chain_code)).
Proof.
  intros Hk Hi pub priv. subst pub priv.
  assert (Hn : 0 < ORDER) by lia.
  rewrite public_run.
  rewrite (secret_run _ _ _ _ _ _ _
             (secret_I64_normal secret_exponent chain_code i s ltac:(lia))).
  rewrite (struct_pack_l_range i Hi).
  rewrite public_pair_for_secret_exponent_pair.
  destruct (public_pair_to_sec _ true) as [e|sec]; [both_raise|].
  cbv zeta.
  destruct (from_bytes_32 _) as [e|IL]; [both_raise|].
  destruct (pair_Point_new secret_exponent Hk) as (x & y & Hpair & Hnew).
  unfold point_of_pair. rewrite Hpair. cbn [unpack2]. rewrite Hnew.
  rewrite rmul_add.
  unfold py_mod.
  replace (ORDER =? 0) with false by (symmetry; apply Z.eqb_neq; lia).
  destruct (Point_eqb _ INFINITY) eqn:Einf.
  - apply Point_eqb_INFINITY in Einf.
    apply (multiple_is_INFINITY _ Hn) in Einf.
    destruct (ORDER <=? IL); [both_raise|].
    rewrite Einf. cbn [Z.eqb]. both_raise.
  - destruct (ORDER <=? IL); [both_raise|].
    destruct ((IL + secret_exponent) mod ORDER =? 0) eqn:Ez.
    + apply Z.eqb_eq in Ez. apply (multiple_is_INFINITY _ Hn) in Ez.
      apply Point_eqb_INFINITY in Ez. congruence.
    + split; [split; intros _; eexists; reflexivity|].
      intros k' c' Hr. cbn [outcome snd] in Hr |- *.
      injection Hr as <- <-. now rewrite rmul_mod_ORDER.
Qed.

(** C2.  For any secret exponent (one that fits 32 bytes when the
    derivation is hardened), chain code, index and hardened flag: when the
    private derivation returns, its result is the child of the
    specification: with [data] the bytes [0x00], the 32-byte big-endian
    secret exponent and the 4-byte big-endian index when hardened, else the
    compressed encoding of generator * secret_exponent and the 4-byte
    big-endian index, and [I] the HMAC-SHA512 of [data] under the chain
    code, it is [(I_L + secret_exponent) mod ORDER] with [I_L] the
    big-endian integer of [I[0:32]], and [I[32:64]]. *)
Theorem private_child_is_reference {HL : HelperLaws prim}
  (secret_exponent : Z) (chain_code : bytes) (i : Z) (is_hardened : bool)
  (s s' : logstate) (child : Z * bytes) :
  (is_hardened = true -> 0 <= secret_exponent < 2 ^ 256) ->
  subkey_secret_exponent_chain_code_pair
    secret_exponent chain_code i is_hardened PyNone s = (s', inr child) ->
  derive_private_child secret_exponent chain_code i is_hardened = Some child.
Proof.
  intros Hk Hrun.
  destruct (secret_I64_pure secret_exponent chain_code i is_hardened PyNone)
    as [r Hr].
  rewrite (secret_run _ _ _ _ _ _ _ (Hr s)) in Hrun.
  destruct r as [e|I64]; [discriminate|].
  pose proof (secret_I64_reference _ _ _ _ _ _ _ Hk (Hr s)) as HI.
  pose proof (ckd_priv_I_length _ _ _ _ _ HI) as Hl.
  rewrite (from_bytes_32_I_L _ Hl) in Hrun.
  destruct (ORDER <=? I_L I64); [discriminate|].
  unfold py_mod in Hrun. destruct (ORDER =? 0); [discriminate|].
  destruct (_ =? 0); [discriminate|].
  injection Hrun as _ <-.
  unfold derive_private_child. rewrite HI. cbn [option_map].
  now rewrite (slice_32_64 _ Hl).
Qed.

(** C3.  For a public pair, any chain code and a non-hardened index
    [0 <= i < 2^31]: when the public derivation returns, its result is the
    child of the specification: with [I] the HMAC-SHA512, under the chain
    code, of the compressed encoding of the pair and the 4-byte big-endian
    index, and [I_L] the big-endian integer of [I[0:32]], it is the pair of
    [I_L * generator + P] and [I[32:64]]. *)
Theorem public_child_is_reference {HL : HelperLaws prim}
  (public_pair : pyval) (chain_code : bytes) (i : Z)
  (s s' : logstate) (child : pyval * bytes) :
  0 <= i < 2 ^ 31 ->
  subkey_public_pair_chain_code_pair public_pair chain_code i s
  = (s', inr child) ->
  derive_public_child public_pair chain_code i = Some child.
Proof.
  intros Hi Hrun. rewrite public_run in Hrun.
  rewrite (struct_pack_l_range i Hi) in Hrun.
  unfold derive_public_child, ckd_pub_I.
  destruct (public_pair_to_sec public_pair true) as [e|sec]; [discriminate|].
  cbv zeta in Hrun.
  set (I64 := hmac_sha512 chain_code (sec ++ be_bytes 4 i)) in *.
  assert (Hl : List.length I64 = 64%nat) by apply hmac_sha512_length.
  rewrite (from_bytes_32_I_L _ Hl) in Hrun.
  destruct (point_of_pair public_pair) as [e|Q]; [discriminate|].
  destruct (Point_eqb _ INFINITY); [discriminate|].
  destruct (ORDER <=? I_L I64); [discriminate|].
  injection Hrun as _ <-. now rewrite (slice_32_64 _ Hl).
Qed.

(** C4.  For a secret exponent in [1, ORDER - 1], any chain code, a 32-bit
    index and either hardened flag: the private derivation raises
    [ValueError] if and only if [I_L >= ORDER] or
    [(I_L + secret_exponent) mod ORDER = 0], with [I_L] the big-endian
    integer of the first 32 bytes of the HMAC-SHA512 of [data] under the
    chain code, and then one critical record is logged; in every other
    case it returns a pair. *)
Theorem private_raises_iff
  {HL : HelperLaws prim} {KL : KeyCodecLaws prim}
  (secret_exponent : Z) (chain_code : bytes) (i : Z) (is_hardened : bool)
  (s : logstate) :
  0 < secret_exponent < ORDER ->
  0 <= i < 2 ^ 32 ->
  exists I64,
    ckd_priv_I secret_exponent chain_code i is_hardened = Some I64
    /\ let run :=
         subkey_secret_exponent_chain_code_pair
           secret_exponent chain_code i is_hardened PyNone s in
       let invalid :=
         ORDER <= I_L I64 \/ (I_L I64 + secret_exponent) mod ORDER = 0 in
       ((exists msg, run = (s ++ [critical_record], inl (ValueError msg)))
        <-> invalid)
       /\ (~ invalid -> exists child, run = (s, inr child)).
Proof.
  intros Hk Hi.
  assert (Hk' : 0 <= secret_exponent < 2 ^ 256)
    by (pose proof ORDER_fits; lia).
  assert (HI : exists I64,
             subkey_secret_I64 secret_exponent chain_code i is_hardened PyNone s
             = (s, inr I64)).
  { destruct is_hardened.
    - rewrite (secret_I64_hardened _ _ _ _ _ Hi), (to_bytes_32_be _ Hk').
      eexists; reflexivity.
    - rewrite (secret_I64_normal _ _ _ _ Hi).
      rewrite public_pair_for_secret_exponent_pair.
      destruct (sec_of_multiple secret_exponent Hk) as [sec ->].
      eexists; reflexivity. }
  destruct HI as [I64 HI]. exists I64.
  pose proof (secret_I64_reference _ _ _ _ _ _ _ (fun _ => Hk') HI) as Href.
  pose proof (ckd_priv_I_length _ _ _ _ _ Href) as Hl.
  split; [exact Href|]. cbv zeta.
  rewrite (secret_run _ _ _ _ _ _ _ HI), (from_bytes_32_I_L _ Hl).
  unfold py_mod.
  replace (ORDER =? 0) with false by (symmetry; apply Z.eqb_neq; lia).
  destruct (ORDER <=? I_L I64) eqn:Ege.
  - apply Z.leb_le in Ege. split.
    + split; [intros _; now left | intros _; eexists; reflexivity].
    + intros Hn. exfalso. apply Hn. now left.
  - apply Z.leb_gt in Ege.
    destruct ((I_L I64 + secret_exponent) mod ORDER =? 0) eqn:Ez.
    + apply Z.eqb_eq in Ez. split.
      * split; [intros _; now right | intros _; eexists; reflexivity].
      * intros Hn. exfalso. apply Hn. now right.
    + apply Z.eqb_neq in Ez. split.
      * split;
          [ intros [msg Hm]; discriminate Hm
          | intros [Hc|Hc]; [lia | contradiction] ].
      * intros _. eexists; reflexivity.
Qed.

(** C5.  For a public point (a pair with a compressed encoding and a point
    on the curve), any chain code and a non-hardened index [0 <= i < 2^31]:
    the public derivation raises [ValueError] if and only if
    [I_L >= ORDER] or [I_L * generator + P] is the point at infinity, and in
    every other case it returns a pair; the failure is the outcome of the
    call itself, and one critical record is logged with it. *)
Theorem public_raises_iff {HL : HelperLaws prim}
  (public_pair : pyval) (chain_code : bytes) (i : Z) (s : logstate)
  (sec : bytes) (P : Point) :
  0 <= i < 2 ^ 31 ->
  public_pair_to_sec public_pair true = inr sec ->
  point_of_pair public_pair = inr P ->
  exists I64,
    ckd_pub_I public_pair chain_code i = Some I64
    /\ let run :=
         subkey_public_pair_chain_code_pair public_pair chain_code i s in
       let invalid :=
         ORDER <= I_L I64
         \/ Point_add (Point_rmul (I_L I64) generator_secp256k1) P
            = INFINITY in
       ((exists msg, run = (s ++ [critical_record], inl (ValueError msg)))
        <-> invalid)
       /\ (~ invalid -> exists child, run = (s, inr child)).
Proof.
  intros Hi Hsec HP.
  exists (hmac_sha512 chain_code (sec ++ be_bytes 4 i)).
  unfold ckd_pub_I. rewrite Hsec. split; [reflexivity|]. cbv zeta.
  rewrite public_run, (struct_pack_l_range i Hi), Hsec, HP. cbv zeta.
  set (I64 := hmac_sha512 chain_code (sec ++ be_bytes 4 i)).
  assert (Hl : List.length I64 = 64%nat) by apply hmac_sha512_length.
  rewrite (from_bytes_32_I_L _ Hl).
  destruct (Point_eqb _ INFINITY) eqn:Einf.
  - apply Point_eqb_INFINITY in Einf. split.
    + split; [intros _; now right | intros _; eexists; reflexivity].
    + intros Hn. exfalso. apply Hn. now right.
  - assert (Hfin : Point_add (Point_rmul (I_L I64) generator_secp256k1) P
                   <> INFINITY).
    { intros Hc. apply Point_eqb_INFINITY in Hc. congruence. }
    destruct (ORDER <=? I_L I64) eqn:Ege.
    + apply Z.leb_le in Ege. split.
      * split; [intros _; now left | intros _; eexists; reflexivity].
      * intros Hn. exfalso. apply Hn. now left.
    + apply Z.leb_gt in Ege. split.
      * split;
          [ intros [msg Hm]; discriminate Hm
          | intros [Hc|Hc]; [lia | contradiction] ].
      * intros _. eexists; reflexivity.
Qed.

End Derivation.

(** ** Index bytes, the optional public pair, purity and error text *)

Section Arguments.

Context {prim : Primitives}.

(** C6, as the code has it.  For an index [0 <= i < 2^32] the private
    derivation packs the index with [">L"] and ends the data it gives to
    HMAC-SHA512, hardened or not, with the unsigned 4-byte big-endian bytes
    of [i].  The public derivation packs it with [">l"]: for a non-hardened
    index [0 <= i < 2^31] the packing gives the same four bytes and the data
    it gives to HMAC-SHA512 is the compressed encoding of the pair followed
    by those bytes, the same data as the private derivation builds from that
    pair; for an index with the top bit set, [2^31 <= i < 2^32], the packing
    raises [struct.error] and the call ends there, whatever the pair and
    the chain code. *)
Theorem public_index_bytes (i : Z) :
  0 <= i < 2 ^ 32 ->
  struct_pack fmt_BE_L i = inr (be_bytes 4 i)
  /\ (forall secret_exponent chain_code is_hardened public_pair s,
        subkey_secret_I64
          secret_exponent chain_code i is_hardened public_pair s
        = (s,
           if is_hardened then
             match to_bytes_32 secret_exponent with
             | inl e => inl e
             | inr secret_bytes =>
                 inr (hmac_sha512 chain_code
                        ([x00] ++ secret_bytes ++ be_bytes 4 i))
             end
           else
             match
               public_pair_to_sec
                 match public_pair with
                 | PyNone =>
                     public_pair_for_secret_exponent
                       generator_secp256k1 secret_exponent
                 | _ => public_pair
                 end true
             with
             | inl e => inl e
             | inr sec => inr (hmac_sha512 chain_code (sec ++ be_bytes 4 i))
             end))
  /\ (i < 2 ^ 31 ->
      struct_pack fmt_BE_l i = struct_pack fmt_BE_L i
      /\ forall public_pair chain_code s,
          subkey_public_pair_chain_code_pair public_pair chain_code i s
          = match public_pair_to_sec public_pair true with
            | inl e => (s, inl e)
            | inr sec =>
                let I64 := hmac_sha512 chain_code (sec ++ be_bytes 4 i) in
                match from_bytes_32 (firstn 32 I64) with
                | inl e => (s, inl e)
                | inr IL =>
                    match point_of_pair public_pair with
                    | inl e => (s, inl e)
                    | inr Q =>
                        let T :=
                          Point_add (Point_rmul IL generator_secp256k1) Q in
                        if Point_eqb T INFINITY then
                          (s ++ [critical_record],
                           inl (ValueError
                                  ("bad derviation: K_" ++ str_int i
                                     ++ " == " ++ Point_str T)))
                        else if ORDER <=? IL then
                          (s ++ [critical_record],
                           inl (ValueError
                                  ("bad derviation: I_L >= "
                                     ++ str_int ORDER)))
                        else (s, inr (Point_pair T, skipn 32 I64))
                    end
                end
            end)
  /\ (2 ^ 31 <= i ->
      forall public_pair chain_code s,
        subkey_public_pair_chain_code_pair public_pair chain_code i s
        = (s, inl (StructError
                     "'l' format requires -2147483648 <= number <= 2147483647"))).
Proof.
  intros Hi. split; [now apply struct_pack_L_range|]. split; [|split].
  - intros secret_exponent chain_code is_hardened public_pair s.
    unfold subkey_secret_I64, bind, lift, ret.
    rewrite (struct_pack_L_range i Hi).
    destruct is_hardened.
    + destruct (to_bytes_32 secret_exponent); reflexivity.
    + destruct (public_pair_to_sec _ true); reflexivity.
  - intros Hlt. split.
    + now rewrite struct_pack_l_range, struct_pack_L_range by lia.
    + intros public_pair chain_code s.
      rewrite public_run, struct_pack_l_range by lia. reflexivity.
  - intros Hge public_pair chain_code s.
    rewrite public_run, (struct_pack_l_hardened i) by lia. reflexivity.
Qed.

(** C7.  Calling the private derivation with the public pair of the secret
    exponent gives the same run, result or error, as calling it with
    [public_pair = None], for every secret exponent, chain code, index and
    hardened flag. *)
Theorem precomputed_public_pair_same_run
  (secret_exponent : Z) (chain_code : bytes) (i : Z) (is_hardened : bool)
  (s : logstate) :
  subkey_secret_exponent_chain_code_pair
    secret_exponent chain_code i is_hardened
    (public_pair_for_secret_exponent generator_secp256k1 secret_exponent) s
  = subkey_secret_exponent_chain_code_pair
      secret_exponent chain_code i is_hardened PyNone s.
Proof.
  unfold subkey_secret_exponent_chain_code_pair, subkey_secret_I64.
  destruct is_hardened; [reflexivity|].
  destruct (public_pair_for_secret_exponent generator_secp256k1
              secret_exponent) eqn:E;
    rewrite ?E; reflexivity.
Qed.

(** The same with the pair written as generator * secret_exponent. *)
Corollary precomputed_multiple_same_run {HL : HelperLaws prim}
  (secret_exponent : Z) (chain_code : bytes) (i : Z) (is_hardened : bool)
  (s : logstate) :
  subkey_secret_exponent_chain_code_pair
    secret_exponent chain_code i is_hardened
    (Point_pair (Point_rmul secret_exponent generator_secp256k1)) s
  = subkey_secret_exponent_chain_code_pair
      secret_exponent chain_code i is_hardened PyNone s.
Proof.
  rewrite <- public_pair_for_secret_exponent_pair.
  unfold subkey_secret_exponent_chain_code_pair, subkey_secret_I64.
  destruct is_hardened; [reflexivity|].
  destruct (public_pair_for_secret_exponent generator_secp256k1
              secret_exponent) eqn:E;
    rewrite ?E; reflexivity.
Qed.

(** C8, as the code has it.  Under one binding of the module-level names
    (the imported helpers, the generator and [ORDER]), two calls of either
    function with the same arguments, from whatever logger states [s1] and
    [s2], end in the same result or the same exception and append the same
    records to the log they found; the log is written, never read.  The
    calls are not free of effects: what a call appends is nothing, or the
    one critical record, and then it raises [ValueError]. *)
Theorem derivations_deterministic_given_bindings
  (secret_exponent : Z) (chain_code_bytes : bytes) (i : Z)
  (is_hardened : bool) (public_pair : pyval) (s1 s2 : logstate) :
  let priv :=
    subkey_secret_exponent_chain_code_pair
      secret_exponent chain_code_bytes i is_hardened public_pair in
  let pub :=
    subkey_public_pair_chain_code_pair public_pair chain_code_bytes i in
  (exists r d,
      priv s1 = (s1 ++ d, r) /\ priv s2 = (s2 ++ d, r)
      /\ (d = []
          \/ (d = [critical_record] /\ exists msg, r = inl (ValueError msg))))
  /\ (exists r d,
         pub s1 = (s1 ++ d, r) /\ pub s2 = (s2 ++ d, r)
         /\ (d = []
             \/ (d = [critical_record]
                 /\ exists msg, r = inl (ValueError msg)))).
Proof.
  intros priv pub. subst priv pub. split.
  - destruct (secret_run_effect secret_exponent chain_code_bytes i
                is_hardened public_pair) as (r & d & Hrun & Hd).
    exists r, d. now rewrite !Hrun.
  - destruct (public_run_effect public_pair chain_code_bytes i)
      as (r & d & Hrun & Hd).
    exists r, d. now rewrite !Hrun.
Qed.

(** C9.  Two failing runs of the private derivation that differ in the
    secret exponent and the chain code, and take the same [raise] statement
    with the same index, raise the same exception text and log the same
    record: the text holds the order or the index, and the record is the
    fixed message; neither holds a byte of the secret exponent or of the
    chain code. *)
Theorem failure_text_independent_of_secrets
  (secret_exponent1 secret_exponent2 : Z) (chain_code1 chain_code2 : bytes)
  (i : Z) (is_hardened : bool) (public_pair : pyval) (s1 s2 : logstate)
  (I64_1 I64_2 : bytes) (I_left1 I_left2 : Z) (site : raise_site) :
  subkey_secret_I64 secret_exponent1 chain_code1 i is_hardened public_pair s1
  = (s1, inr I64_1) ->
  subkey_secret_I64 secret_exponent2 chain_code2 i is_hardened public_pair s2
  = (s2, inr I64_2) ->
  from_bytes_32 (firstn 32 I64_1) = inr I_left1 ->
  from_bytes_32 (firstn 32 I64_2) = inr I_left2 ->
  secret_raise_site I_left1 secret_exponent1 = Some site ->
  secret_raise_site I_left2 secret_exponent2 = Some site ->
  let text :=
    match site with
    | site_I_L_ge_ORDER => "bad derviation: I_L >= " ++ str_int ORDER
    | site_k_zero => "bad derviation: k_" ++ str_int i ++ " == 0"
    end%string in
  subkey_secret_exponent_chain_code_pair
    secret_exponent1 chain_code1 i is_hardened public_pair s1
  = (s1 ++ [critical_record], inl (ValueError text))
  /\ subkey_secret_exponent_chain_code_pair
       secret_exponent2 chain_code2 i is_hardened public_pair s2
     = (s2 ++ [critical_record], inl (ValueError text)).
Proof.
  intros H1 H2 F1 F2 S1 S2 text. subst text.
  rewrite (secret_run _ _ _ _ _ _ _ H1), (secret_run _ _ _ _ _ _ _ H2).
  rewrite F1, F2. unfold secret_raise_site in S1, S2.
  destruct (ORDER <=? I_left1), (ORDER <=? I_left2);
    try (injection S1 as <-); try (injection S2 as <-);
    try discriminate; try (split; reflexivity).
  - destruct (py_mod (I_left2 + secret_exponent2) ORDER) as [e|k2];
      [discriminate|]. destruct (k2 =? 0); discriminate.
  - destruct (py_mod (I_left1 + secret_exponent1) ORDER) as [e|k1];
      [discriminate|]. destruct (k1 =? 0); discriminate.
  - destruct (py_mod (I_left1 + secret_exponent1) ORDER) as [e|k1];
      [discriminate|].
    destruct (py_mod (I_left2 + secret_exponent2) ORDER) as [e|k2];
      [destruct (k1 =? 0); congruence|].
    destruct (k1 =? 0); [|discriminate].
    destruct (k2 =? 0); [|congruence].
    injection S1 as <-. split; reflexivity.
Qed.

(** An index outside 32 bits ends the run in [struct.pack]: the exception
    is that of the packing, a function of the index alone, and nothing is
    logged. *)
Lemma secret_pack_failure
  (k : Z) (cc : bytes) (i : Z) (h : bool) (pp : pyval) (s : logstate)
  (e : exn) :
  struct_pack fmt_BE_L i = inl e ->
  subkey_secret_exponent_chain_code_pair k cc i h pp s = (s, inl e).
Proof.
  intros Hp.
  unfold subkey_secret_exponent_chain_code_pair, subkey_secret_I64,
    bind, lift.
  now rewrite Hp.
Qed.

(** Every failing run ends in a library call that raised, with nothing
    logged, or at one of the two [raise] statements. *)
Lemma secret_failure_sites
  (k : Z) (cc : bytes) (i : Z) (h : bool) (pp : pyval) (s s' : logstate)
  (e : exn) :
  subkey_secret_exponent_chain_code_pair k cc i h pp s = (s', inl e) ->
  s' = s
  \/ exists I64 IL site,
       subkey_secret_I64 k cc i h pp s = (s, inr I64)
       /\ from_bytes_32 (firstn 32 I64) = inr IL
       /\ secret_raise_site IL k = Some site.
Proof.
  intros Hrun. destruct (secret_I64_pure k cc i h pp) as [r Hr].
  rewrite (secret_run _ _ _ _ _ _ _ (Hr s)) in Hrun.
  destruct r as [e0|I64]; [left; congruence|].
  destruct (from_bytes_32 (firstn 32 I64)) as [e0|IL] eqn:EF;
    [left; congruence|].
  destruct (ORDER <=? IL) eqn:Ege.
  - right. exists I64, IL, site_I_L_ge_ORDER.
    unfold secret_raise_site. rewrite Ege. now rewrite Hr.
  - destruct (py_mod (IL + k) ORDER) as [e0|k'] eqn:Em; [left; congruence|].
    destruct (k' =? 0) eqn:Ez; [|discriminate].
    right. exists I64, IL, site_k_zero.
    unfold secret_raise_site. rewrite Ege, Em, Ez. now rewrite Hr.
Qed.

(** C10.  With [is_hardened] true the run of the private derivation does
    not depend on [public_pair]: any two values, [None], a pair off the
    curve or a value that is no pair, give the same result or exception. *)
Theorem hardened_ignores_public_pair
  (secret_exponent : Z) (chain_code : bytes) (i : Z)
  (public_pair1 public_pair2 : pyval) (s : logstate) :
  subkey_secret_exponent_chain_code_pair
    secret_exponent chain_code i true public_pair1 s
  = subkey_secret_exponent_chain_code_pair
      secret_exponent chain_code i true public_pair2 s.
Proof.
  unfold subkey_secret_exponent_chain_code_pair, subkey_secret_I64.
  reflexivity.
Qed.

End Arguments.

(** ** The small instance meets the laws *)

Lemma Tiny_residue (e : Z) :
  e mod Tiny.n = 0 \/ e mod Tiny.n = 1 \/ e mod Tiny.n = 2 \/ e mod Tiny.n = 3
  \/ e mod Tiny.n = 4 \/ e mod Tiny.n = 5 \/ e mod Tiny.n = 6.
Proof.
  unfold Tiny.n. pose proof (Z.mod_pos_bound e 7 ltac:(lia)). lia.
Qed.

Lemma Tiny_finite (e : Z) :
  0 < e < Tiny.n -> e = 1 \/ e = 2 \/ e = 3 \/ e = 4 \/ e = 5 \/ e = 6.
Proof. unfold Tiny.n. lia. Qed.

Lemma Tiny_rmul_mod (e : Z) :
  Tiny.rmul (e mod Tiny.n) Tiny.G = Tiny.rmul e Tiny.G.
Proof. unfold Tiny.rmul. now rewrite Z.mod_mod by (unfold Tiny.n; lia). Qed.

(** The group law on the seven points, case by case. *)
Lemma Tiny_rmul_add (a b : Z) :
  Tiny.add (Tiny.rmul a Tiny.G) (Tiny.rmul b Tiny.G)
  = Tiny.rmul (a + b) Tiny.G.
Proof.
  unfold Tiny.rmul. rewrite (Z.add_mod a b) by (unfold Tiny.n; lia).
  destruct (Tiny_residue a) as [Ha|[Ha|[Ha|[Ha|[Ha|[Ha|Ha]]]]]]; rewrite Ha;
    destruct (Tiny_residue b) as [Hb|[Hb|[Hb|[Hb|[Hb|[Hb|Hb]]]]]]; rewrite Hb;
    vm_compute; reflexivity.
Qed.

(** Every multiple of [G] lies on the curve. *)
Lemma Tiny_multiples_on_curve (e : Z) :
  match Tiny.rmul e Tiny.G with
  | None => True
  | Some (x, y) => Tiny.contains_point x y = true
  end.
Proof.
  rewrite <- Tiny_rmul_mod.
  destruct (Tiny_residue e) as [H|[H|[H|[H|[H|[H|H]]]]]]; rewrite H;
    vm_compute; reflexivity.
Qed.

Lemma Tiny_helper_laws : HelperLaws Tiny.prims.
Proof.
  constructor.
  - intros z Hz. change (Tiny.to_bytes z = inr (be_bytes 32 z)).
    unfold Tiny.to_bytes.
    replace (0 <=? z) with true by (symmetry; apply Z.leb_le; lia).
    replace (z <? 2 ^ 256) with true by (symmetry; apply Z.ltb_lt; lia).
    reflexivity.
  - intros bs _. reflexivity.
  - intros key msg. change (List.length (Tiny.digest key msg) = 64%nat).
    unfold Tiny.digest. now rewrite length_app, !be_bytes_length.
  - intros e. reflexivity.
  - intros [[x y]|]; cbn; split; intros H; try reflexivity; discriminate H.
Qed.

Lemma Tiny_group_laws : GroupLaws Tiny.prims.
Proof.
  constructor.
  - reflexivity.
  - intros e He. change (0 < e < Tiny.n) in He.
    destruct (Tiny_finite e He) as [->|[->|[->|[->|[->| ->]]]]];
      vm_compute; discriminate.
  - exact Tiny_rmul_mod.
  - exact Tiny_rmul_add.
  - intros e He. change (0 < e < Tiny.n) in He.
    destruct (Tiny_finite e He) as [->|[->|[->|[->|[->| ->]]]]];
      eexists; eexists; split; vm_compute; reflexivity.
Qed.

Lemma Tiny_key_codec_laws : KeyCodecLaws Tiny.prims.
Proof.
  constructor.
  - vm_compute. discriminate.
  - intros e He. change (0 < e < Tiny.n) in He.
    destruct (Tiny_finite e He) as [->|[->|[->|[->|[->| ->]]]]];
      eexists; vm_compute; reflexivity.
Qed.

(** ** The theorems at work on the small instance *)

(** The secret exponent 3 has the public pair [(11, 8)]; with the chain code
    [02] and index 0 the private child is 5 and the public child is the pair
    [(8, 8)] of 5 * G. *)
Lemma public_child_matches_private_child_witness :
  (0 < 3 < ORDER (prim := Tiny.prims) /\ 0 <= 0 < 2 ^ 31)
  /\ outcome
       (subkey_public_pair_chain_code_pair (prim := Tiny.prims)
          (PyTuple [PyInt 11; PyInt 8]) [x02] 0 [])
     = inr (PyTuple [PyInt 8; PyInt 8], be_bytes 32 13).
Proof.
  assert (Hk : 0 < 3 < ORDER (prim := Tiny.prims))
    by (vm_compute; split; reflexivity).
  assert (Hi : 0 <= 0 < 2 ^ 31) by lia.
  split; [split; assumption|].
  apply (proj2 (public_child_matches_private_child
                  (prim := Tiny.prims) (HL := Tiny_helper_laws)
                  (GL := Tiny_group_laws) 3 [x02] 0 [] Hk Hi) 5).
  vm_compute. reflexivity.
Defined.

(** A hardened derivation: the data is [00], the 32 bytes of 3 and the 4
    bytes of 5. *)
Lemma private_child_is_reference_witness :
  ((true = true -> 0 <= 3 < 2 ^ 256)
   /\ subkey_secret_exponent_chain_code_pair (prim := Tiny.prims)
        3 [x02] 5 true PyNone []
      = ([], inr (5, be_bytes 32 8)))
  /\ derive_private_child (prim := Tiny.prims) 3 [x02] 5 true
     = Some (5, be_bytes 32 8).
Proof.
  assert (Hk : true = true -> 0 <= 3 < 2 ^ 256) by (intros _; lia).
  assert (Hrun : subkey_secret_exponent_chain_code_pair (prim := Tiny.prims)
                   3 [x02] 5 true PyNone []
                 = ([], inr (5, be_bytes 32 8)))
    by (vm_compute; reflexivity).
  split; [split; assumption|].
  exact (private_child_is_reference (prim := Tiny.prims)
           (HL := Tiny_helper_laws) 3 [x02] 5 true [] [] _ Hk Hrun).
Defined.

Lemma public_child_is_reference_witness :
  (0 <= 0 < 2 ^ 31
   /\ subkey_public_pair_chain_code_pair (prim := Tiny.prims)
        (PyTuple [PyInt 11; PyInt 8]) [x02] 0 []
      = ([], inr (PyTuple [PyInt 8; PyInt 8], be_bytes 32 13)))
  /\ derive_public_child (prim := Tiny.prims)
       (PyTuple [PyInt 11; PyInt 8]) [x02] 0
     = Some (PyTuple [PyInt 8; PyInt 8], be_bytes 32 13).
Proof.
  assert (Hi : 0 <= 0 < 2 ^ 31) by lia.
  assert (Hrun : subkey_public_pair_chain_code_pair (prim := Tiny.prims)
                   (PyTuple [PyInt 11; PyInt 8]) [x02] 0 []
                 = ([], inr (PyTuple [PyInt 8; PyInt 8], be_bytes 32 13)))
    by (vm_compute; reflexivity).
  split; [split; assumption|].
  exact (public_child_is_reference (prim := Tiny.prims)
           (HL := Tiny_helper_laws) _ [x02] 0 [] [] _ Hi Hrun).
Defined.

(** With the chain code [04] the digest gives [I_L = 4], and 4 + 3 is the
    order: the private derivation of secret exponent 3 raises. *)
Lemma private_raises_iff_witness :
  (0 < 3 < ORDER (prim := Tiny.prims) /\ 0 <= 0 < 2 ^ 32)
  /\ exists msg,
       subkey_secret_exponent_chain_code_pair (prim := Tiny.prims)
         3 [x04] 0 false PyNone []
       = ([critical_record], inl (ValueError msg)).
Proof.
  assert (Hk : 0 < 3 < ORDER (prim := Tiny.prims))
    by (vm_compute; split; reflexivity).
  assert (Hi : 0 <= 0 < 2 ^ 32) by lia.
  split; [split; assumption|].
  destruct (private_raises_iff (prim := Tiny.prims) (HL := Tiny_helper_laws)
              (KL := Tiny_key_codec_laws) 3 [x04] 0 false [] Hk Hi)
    as (I64 & HI & Hiff & _).
  assert (HI' : ckd_priv_I (prim := Tiny.prims) 3 [x04] 0 false
                = Some (be_bytes 32 4 ++ be_bytes 32 13))
    by (vm_compute; reflexivity).
  rewrite HI' in HI. injection HI as <-.
  apply Hiff. right. vm_compute. reflexivity.
Defined.

(** The same digest on the public side: 4 * G + (11, 8) is the point at
    infinity. *)
Lemma public_raises_iff_witness :
  (0 <= 0 < 2 ^ 31
   /\ public_pair_to_sec (Primitives := Tiny.prims)
        (PyTuple [PyInt 11; PyInt 8]) true
      = inr (x02 :: be_bytes 32 11)
   /\ point_of_pair (prim := Tiny.prims) (PyTuple [PyInt 11; PyInt 8])
      = inr (Some (11, 8)))
  /\ exists msg,
       subkey_public_pair_chain_code_pair (prim := Tiny.prims)
         (PyTuple [PyInt 11; PyInt 8]) [x04] 0 []
       = ([critical_record], inl (ValueError msg)).
Proof.
  assert (Hi : 0 <= 0 < 2 ^ 31) by lia.
  assert (Hsec : public_pair_to_sec (Primitives := Tiny.prims)
                   (PyTuple [PyInt 11; PyInt 8]) true
                 = inr (x02 :: be_bytes 32 11)) by reflexivity.
  assert (HP : point_of_pair (prim := Tiny.prims)
                 (PyTuple [PyInt 11; PyInt 8])
               = inr (Some (11, 8))) by reflexivity.
  split; [split; [exact Hi | split; assumption]|].
  destruct (public_raises_iff (prim := Tiny.prims) (HL := Tiny_helper_laws)
              (PyTuple [PyInt 11; PyInt 8]) [x04] 0 [] _ _ Hi Hsec HP)
    as (I64 & HI & Hiff & _).
  assert (HI' : ckd_pub_I (prim := Tiny.prims)
                  (PyTuple [PyInt 11; PyInt 8]) [x04] 0
                = Some (be_bytes 32 4 ++ be_bytes 32 13))
    by (vm_compute; reflexivity).
  rewrite HI' in HI. injection HI as <-.
  apply Hiff. right. vm_compute. reflexivity.
Defined.

(** The index 5 has the bytes [00 00 00 05] under both formats, and both
    derivations hand HMAC-SHA512 the encoding of [(11, 8)] followed by
    them. *)
Lemma public_index_bytes_witness :
  (0 <= 5 < 2 ^ 32 /\ 5 < 2 ^ 31)
  /\ struct_pack fmt_BE_L 5 = inr [x00; x00; x00; x05]
  /\ struct_pack fmt_BE_l 5 = struct_pack fmt_BE_L 5
  /\ subkey_secret_I64 (prim := Tiny.prims) 3 [x02] 5 false PyNone []
     = ([], inr (Tiny.digest [x02]
                   ((x02 :: be_bytes 32 11) ++ [x00; x00; x00; x05])))
  /\ subkey_public_pair_chain_code_pair (prim := Tiny.prims)
       (PyTuple [PyInt 11; PyInt 8]) [x02] 5 []
     = ([], inr (PyTuple [PyInt 8; PyInt 8], be_bytes 32 18)).
Proof.
  assert (Hi : 0 <= 5 < 2 ^ 32) by lia.
  assert (Hlt : 5 < 2 ^ 31) by lia.
  split; [split; assumption|].
  destruct (public_index_bytes (prim := Tiny.prims) 5 Hi)
    as (HL & Hpriv & Hpub & _).
  destruct (Hpub Hlt) as [Hl Hrun].
  split; [exact HL|]. split; [exact Hl|]. split.
  - rewrite Hpriv. reflexivity.
  - rewrite Hrun. vm_compute. reflexivity.
Defined.

(** C6, refuted as stated: the index [2^31] lies in [0, 2^32) and the private
    derivation encodes it as [80 00 00 00] and returns, while the public
    derivation raises [struct.error] on packing it. *)
Lemma public_rejects_hardened_index :
  struct_pack fmt_BE_L 2147483648 = inr [x80; x00; x00; x00]
  /\ struct_pack fmt_BE_l 2147483648
     = inl (StructError
              "'l' format requires -2147483648 <= number <= 2147483647")
  /\ subkey_secret_exponent_chain_code_pair (prim := Tiny.prims)
       1 [x02] 2147483648 false PyNone []
     = ([], inr (3, be_bytes 32 138))
  /\ subkey_public_pair_chain_code_pair (prim := Tiny.prims)
       (PyTuple [PyInt 7; PyInt 5]) [x02] 2147483648 []
     = ([], inl (StructError
                   "'l' format requires -2147483648 <= number <= 2147483647"))
  /\ ~ (forall i, 0 <= i < 2 ^ 32 ->
        struct_pack fmt_BE_l i = struct_pack fmt_BE_L i).
Proof.
  split; [vm_compute; reflexivity|].
  split; [vm_compute; reflexivity|].
  split; [vm_compute; reflexivity|].
  split; [vm_compute; reflexivity|].
  intros Hall.
  assert (Hi : 0 <= 2147483648 < 2 ^ 32) by lia.
  specialize (Hall 2147483648 Hi).
  rewrite (struct_pack_L_range _ Hi) in Hall.
  rewrite (struct_pack_l_hardened 2147483648) in Hall by lia.
  discriminate Hall.
Qed.

(** C8, refuted as stated: the same arguments give a child while [ORDER]
    is bound to the order 7 and raise once the module-level name is bound
    to 2, for both functions; and the raising call has changed the log. *)
Lemma derivations_read_ORDER_and_log :
  subkey_secret_exponent_chain_code_pair (prim := Tiny.prims)
    3 [x02] 0 false PyNone []
  = ([], inr (5, be_bytes 32 13))
  /\ subkey_secret_exponent_chain_code_pair (prim := rebind_ORDER Tiny.prims 2)
       3 [x02] 0 false PyNone []
     = ([critical_record], inl (ValueError "bad derviation: I_L >= 2"))
  /\ subkey_public_pair_chain_code_pair (prim := Tiny.prims)
       (PyTuple [PyInt 11; PyInt 8]) [x02] 0 []
     = ([], inr (PyTuple [PyInt 8; PyInt 8], be_bytes 32 13))
  /\ subkey_public_pair_chain_code_pair (prim := rebind_ORDER Tiny.prims 2)
       (PyTuple [PyInt 11; PyInt 8]) [x02] 0 []
     = ([critical_record], inl (ValueError "bad derviation: I_L >= 2")).
Proof.
  split; [vm_compute; reflexivity|].
  split; [vm_compute; reflexivity|].
  split; vm_compute; reflexivity.
Qed.

(** Secret exponent 3 under chain code [04] and secret exponent 5 under
    chain code [02] both reach [new_secret_exponent == 0]: same text, same
    record. *)
Lemma failure_text_independent_of_secrets_witness :
  subkey_secret_exponent_chain_code_pair (prim := Tiny.prims)
    3 [x04] 0 false PyNone []
  = ([critical_record], inl (ValueError "bad derviation: k_0 == 0"))
  /\ subkey_secret_exponent_chain_code_pair (prim := Tiny.prims)
       5 [x02] 0 false PyNone []
     = ([critical_record], inl (ValueError "bad derviation: k_0 == 0")).
Proof.
  exact (failure_text_independent_of_secrets (prim := Tiny.prims)
           3 5 [x04] [x02] 0 false PyNone [] []
           (be_bytes 32 4 ++ be_bytes 32 13) (be_bytes 32 2 ++ be_bytes 32 10)
           4 2 site_k_zero
           eq_refl eq_refl eq_refl eq_refl eq_refl eq_refl).
Defined.

(** * Further properties of the two derivation functions *)

(** ** The index bytes *)

Lemma struct_pack_l_signed (i : Z) :
  - 2 ^ 31 <= i < 2 ^ 31 ->
  struct_pack fmt_BE_l i = inr (be_bytes 4 (i mod 2 ^ 32)).
Proof.
  intros Hi. unfold struct_pack.
  replace (-2147483648 <=? i) with true by (symmetry; apply Z.leb_le; lia).
  replace (i <=? 2147483647) with true by (symmetry; apply Z.leb_le; lia).
  reflexivity.
Qed.

Lemma struct_pack_l_inr (i : Z) (bs : bytes) :
  struct_pack fmt_BE_l i = inr bs ->
  - 2 ^ 31 <= i < 2 ^ 31 /\ bs = be_bytes 4 (i mod 2 ^ 32).
Proof.
  unfold struct_pack.
  destruct ((-2147483648 <=? i) && (i <=? 2147483647)) eqn:E.
  - intros H. apply andb_true_iff in E. destruct E as [E1 E2].
    apply Z.leb_le in E1, E2. split; [lia | congruence].
  - destruct ((-9223372036854775808 <=? i) && (i <=? 9223372036854775807));
      intros H; discriminate H.
Qed.

Lemma struct_pack_L_outside (i : Z) :
  ~ 0 <= i < 2 ^ 32 ->
  exists msg, struct_pack fmt_BE_L i = inl (StructError msg).
Proof.
  intros Hi. unfold struct_pack.
  destruct ((0 <=? i) && (i <=? 4294967295)) eqn:E.
  - apply andb_true_iff in E. destruct E as [E1 E2].
    apply Z.leb_le in E1, E2. lia.
  - destruct ((0 <=? i) && (i <=? 18446744073709551615)); eexists; reflexivity.
Qed.

Lemma struct_pack_l_outside (i : Z) :
  ~ - 2 ^ 31 <= i < 2 ^ 31 ->
  exists msg, struct_pack fmt_BE_l i = inl (StructError msg).
Proof.
  intros Hi. unfold struct_pack.
  destruct ((-2147483648 <=? i) && (i <=? 2147483647)) eqn:E.
  - apply andb_true_iff in E. destruct E as [E1 E2].
    apply Z.leb_le in E1, E2. lia.
  - destruct ((-9223372036854775808 <=? i) && (i <=? 9223372036854775807));
      eexists; reflexivity.
Qed.

(** X5.  The index bytes of either function decode back to the index: when
    the packing of line 93 ([">L"]) or of line 129 ([">l"]) succeeds it
    gives four bytes whose big-endian integer is [i] for the unsigned
    format and [i mod 2^32] (two's complement) for the signed one. *)
Theorem index_bytes_decode (fmt : pack_format) (i : Z) (bs : bytes) :
  struct_pack fmt i = inr bs ->
  List.length bs = 4%nat
  /\ be_int bs = match fmt with
                 | fmt_BE_L => i
                 | fmt_BE_l => i mod 2 ^ 32
                 end.
Proof.
  destruct fmt; intros H.
  - apply struct_pack_L_inr in H. destruct H as [Hi ->].
    split; [apply be_bytes_length|].
    rewrite be_int_be_bytes. change (256 ^ Z.of_nat 4) with (2 ^ 32).
    apply Z.mod_small. exact Hi.
  - apply struct_pack_l_inr in H. destruct H as [Hi ->].
    split; [apply be_bytes_length|].
    rewrite be_int_be_bytes. change (256 ^ Z.of_nat 4) with (2 ^ 32).
    apply Z.mod_mod. lia.
Qed.

Section Further.

Context {prim : Primitives}.

(** ** What a returning run went through *)

Lemma secret_run_returns (k : Z) (cc : bytes) (i : Z) (h : bool) (pp : pyval)
  (s s' : logstate) (k' : Z) (c' : bytes) :
  subkey_secret_exponent_chain_code_pair k cc i h pp s = (s', inr (k', c')) ->
  exists I64 IL,
    subkey_secret_I64 k cc i h pp s = (s, inr I64)
    /\ from_bytes_32 (firstn 32 I64) = inr IL
    /\ IL < ORDER /\ ORDER <> 0
    /\ k' = (IL + k) mod ORDER /\ k' <> 0
    /\ c' = skipn 32 I64 /\ s' = s.
Proof.
  intros Hrun. destruct (secret_I64_pure k cc i h pp) as [r Hr].
  rewrite (secret_run _ _ _ _ _ _ _ (Hr s)) in Hrun.
  destruct r as [e|I64]; [discriminate|].
  destruct (from_bytes_32 (firstn 32 I64)) as [e|IL] eqn:EF; [discriminate|].
  destruct (ORDER <=? IL) eqn:Ege; [discriminate|].
  unfold py_mod in Hrun. destruct (ORDER =? 0) eqn:E0; [discriminate|].
  destruct ((IL + k) mod ORDER =? 0) eqn:Ez; [discriminate|].
  injection Hrun as <- <- <-.
  apply Z.leb_gt in Ege. apply Z.eqb_neq in E0, Ez.
  exists I64, IL. rewrite Hr. repeat split; auto.
Qed.

Lemma secret_I64_digest (k : Z) (cc : bytes) (i : Z) (h : bool) (pp : pyval)
  (s s' : logstate) (I64 : bytes) :
  subkey_secret_I64 k cc i h pp s = (s', inr I64) ->
  exists data, I64 = hmac_sha512 cc data.
Proof.
  unfold subkey_secret_I64, bind, lift, ret.
  destruct (struct_pack fmt_BE_L i) as [e|ib]; [discriminate|].
  destruct h.
  - destruct (to_bytes_32 k) as [e|sb]; [discriminate|].
    intros H. injection H as _ <-. eexists; reflexivity.
  - destruct (public_pair_to_sec _ true) as [e|sec]; [discriminate|].
    intros H. injection H as _ <-. eexists; reflexivity.
Qed.

(** With a public pair supplied, lines 98 to 101 do not read the secret
    exponent. *)
Lemma secret_I64_supplied_pair (k1 k2 : Z) (cc : bytes) (i : Z) (pp : pyval)
  (s1 s2 : logstate) (I64 : bytes) :
  pp <> PyNone ->
  subkey_secret_I64 k1 cc i false pp s1 = (s1, inr I64) ->
  subkey_secret_I64 k2 cc i false pp s2 = (s2, inr I64).
Proof.
  intros Hpp. unfold subkey_secret_I64, bind, lift, ret.
  destruct (struct_pack fmt_BE_L i) as [e|ib]; [discriminate|].
  destruct pp as [|n|items]; [contradiction| |];
    destruct (public_pair_to_sec _ true) as [e|sec]; try discriminate;
    intros H; injection H as <-; reflexivity.
Qed.

Lemma public_run_returns (P : pyval) (cc : bytes) (i : Z) (s s' : logstate)
  (child : pyval) (c' : bytes) :
  subkey_public_pair_chain_code_pair P cc i s = (s', inr (child, c')) ->
  exists ib sec IL Q,
    struct_pack fmt_BE_l i = inr ib
    /\ public_pair_to_sec P true = inr sec
    /\ from_bytes_32 (firstn 32 (hmac_sha512 cc (sec ++ ib))) = inr IL
    /\ point_of_pair P = inr Q
    /\ Point_eqb (Point_add (Point_rmul IL generator_secp256k1) Q) INFINITY
       = false
    /\ IL < ORDER
    /\ child = Point_pair (Point_add (Point_rmul IL generator_secp256k1) Q)
    /\ c' = skipn 32 (hmac_sha512 cc (sec ++ ib))
    /\ s' = s.
Proof.
  intros Hrun. rewrite public_run in Hrun.
  destruct (struct_pack fmt_BE_l i) as [e|ib]; [discriminate|].
  destruct (public_pair_to_sec P true) as [e|sec]; [discriminate|].
  cbv zeta in Hrun.
  destruct (from_bytes_32 _) as [e|IL] eqn:EF; [discriminate|].
  destruct (point_of_pair P) as [e|Q]; [discriminate|].
  destruct (Point_eqb _ INFINITY) eqn:Einf; [discriminate|].
  destruct (ORDER <=? IL) eqn:Ege; [discriminate|].
  injection Hrun as <- <- <-. apply Z.leb_gt in Ege.
  exists ib, sec, IL, Q. repeat split; auto.
Qed.

(** The public run on the pair of [k * G] mirrors the private, non-hardened
    run whenever the two packings give the same index bytes. *)
Lemma public_matches_private_bytes
  {HL : HelperLaws prim} {GL : GroupLaws prim}
  (k : Z) (cc : bytes) (ipub ipriv : Z) (ib : bytes) (s : logstate) :
  0 < k < ORDER ->
  struct_pack fmt_BE_l ipub = inr ib ->
  struct_pack fmt_BE_L ipriv = inr ib ->
  let pub :=
    subkey_public_pair_chain_code_pair
      (Point_pair (Point_rmul k generator_secp256k1)) cc ipub s in
  let priv :=
    subkey_secret_exponent_chain_code_pair k cc ipriv false PyNone s in
  (forall k' c' s',
      priv = (s', inr (k', c')) ->
      pub = (s, inr (Point_pair (Point_rmul k' generator_secp256k1), c')))
  /\ (forall r s', pub = (s', inr r) -> exists child, priv = (s, inr child)).
Proof.
  intros Hk Hpub Hpriv pub priv. subst pub priv.
  assert (Hn : 0 < ORDER) by lia.
  assert (HI : subkey_secret_I64 k cc ipriv false PyNone s =
               (s, match public_pair_to_sec
                           (Point_pair (Point_rmul k generator_secp256k1)) true
                   with
                   | inl e => inl e
                   | inr sec => inr (hmac_sha512 cc (sec ++ ib))
                   end)).
  { unfold subkey_secret_I64, bind, lift, ret. rewrite Hpriv.
    rewrite public_pair_for_secret_exponent_pair.
    destruct (public_pair_to_sec _ true); reflexivity. }
  rewrite public_run, (secret_run _ _ _ _ _ _ _ HI), Hpub.
  destruct (public_pair_to_sec _ true) as [e|sec];
    [split; intros; discriminate|].
  cbv zeta.
  destruct (from_bytes_32 _) as [e|IL]; [split; intros; discriminate|].
  destruct (pair_Point_new k Hk) as (x & y & Hpair & Hnew).
  unfold point_of_pair. rewrite Hpair. cbn [unpack2]. rewrite Hnew.
  rewrite rmul_add. unfold py_mod.
  replace (ORDER =? 0) with false by (symmetry; apply Z.eqb_neq; lia).
  destruct (Point_eqb _ INFINITY) eqn:Einf.
  - apply Point_eqb_INFINITY in Einf.
    apply (multiple_is_INFINITY _ Hn) in Einf.
    destruct (ORDER <=? IL); [split; intros; discriminate|].
    rewrite Einf. cbn [Z.eqb]. split; intros; discriminate.
  - destruct (ORDER <=? IL); [split; intros; discriminate|].
    destruct ((IL + k) mod ORDER =? 0) eqn:Ez.
    + apply Z.eqb_eq in Ez. apply (multiple_is_INFINITY _ Hn) in Ez.
      apply Point_eqb_INFINITY in Ez. congruence.
    + split.
      * intros k' c' s' Hr. injection Hr as _ <- <-.
        now rewrite rmul_mod_ORDER.
      * intros r s' _. eexists; reflexivity.
Qed.

(** ** What the functions return *)

(** X1.  Whatever the arguments (secret exponent, chain code, index,
    hardened flag, public pair), when the order is positive and
    [subkey_secret_exponent_chain_code_pair] returns, the new secret
    exponent lies in [1, ORDER - 1]: lines 108 to 111 reduce modulo the
    order and refuse zero. *)
Theorem private_child_in_range
  (secret_exponent : Z) (chain_code : bytes) (i : Z) (is_hardened : bool)
  (public_pair : pyval) (s s' : logstate)
  (new_secret_exponent : Z) (new_chain_code : bytes) :
  0 < ORDER ->
  subkey_secret_exponent_chain_code_pair
    secret_exponent chain_code i is_hardened public_pair s
  = (s', inr (new_secret_exponent, new_chain_code)) ->
  0 < new_secret_exponent < ORDER.
Proof.
  intros Hn Hrun.
  destruct (secret_run_returns _ _ _ _ _ _ _ _ _ Hrun)
    as (I64 & IL & _ & _ & _ & _ & Hk & Hnz & _).
  pose proof (Z.mod_pos_bound (IL + secret_exponent) ORDER Hn). lia.
Qed.

(** X2.  With a 64-byte digest, the new chain code either function returns
    has exactly 32 bytes, whatever the length of the chain code it was
    given. *)
Theorem child_chain_code_length {HL : HelperLaws prim}
  (secret_exponent : Z) (chain_code : bytes) (i : Z) (is_hardened : bool)
  (public_pair : pyval) (s s1 s2 : logstate)
  (new_secret_exponent : Z) (new_public_pair : pyval)
  (new_chain_code1 new_chain_code2 : bytes) :
  (subkey_secret_exponent_chain_code_pair
     secret_exponent chain_code i is_hardened public_pair s
   = (s1, inr (new_secret_exponent, new_chain_code1)) ->
   List.length new_chain_code1 = 32%nat)
  /\ (subkey_public_pair_chain_code_pair public_pair chain_code i s
      = (s2, inr (new_public_pair, new_chain_code2)) ->
      List.length new_chain_code2 = 32%nat).
Proof.
  split; intros Hrun.
  - destruct (secret_run_returns _ _ _ _ _ _ _ _ _ Hrun)
      as (I64 & IL & HI & _ & _ & _ & _ & _ & -> & _).
    destruct (secret_I64_digest _ _ _ _ _ _ _ _ HI) as [data ->].
    rewrite length_skipn, hmac_sha512_length. reflexivity.
  - destruct (public_run_returns _ _ _ _ _ _ _ Hrun)
      as (ib & sec & IL & Q & _ & _ & _ & _ & _ & _ & _ & -> & _).
    rewrite length_skipn, hmac_sha512_length. reflexivity.
Qed.

(** X7.  When [subkey_public_pair_chain_code_pair] returns, the new public
    pair is the pair of a point that is not the point at infinity (line 140
    raised otherwise). *)
Theorem public_child_is_finite {HL : HelperLaws prim}
  (public_pair : pyval) (chain_code : bytes) (i : Z) (s s' : logstate)
  (new_public_pair : pyval) (new_chain_code : bytes) :
  subkey_public_pair_chain_code_pair public_pair chain_code i s
  = (s', inr (new_public_pair, new_chain_code)) ->
  exists the_point,
    the_point <> INFINITY /\ new_public_pair = Point_pair the_point.
Proof.
  intros Hrun.
  destruct (public_run_returns _ _ _ _ _ _ _ Hrun)
    as (ib & sec & IL & Q & _ & _ & _ & _ & Einf & _ & -> & _).
  eexists. split; [|reflexivity].
  intros Hc. apply Point_eqb_INFINITY in Hc. congruence.
Qed.

(** ** Logging and rejected arguments *)

(** X3.  A run of either function leaves the log as it found it, or appends
    exactly the one critical record and raises [ValueError]: a run that
    returns, and a run that fails inside a library call, log nothing. *)
Theorem runs_log_only_when_raising
  (secret_exponent : Z) (chain_code : bytes) (i : Z) (is_hardened : bool)
  (public_pair : pyval) (s : logstate) :
  let priv :=
    subkey_secret_exponent_chain_code_pair
      secret_exponent chain_code i is_hardened public_pair s in
  let pub :=
    subkey_public_pair_chain_code_pair public_pair chain_code i s in
  (log_of priv = s
   \/ exists msg, priv = (s ++ [critical_record], inl (ValueError msg)))
  /\ (log_of pub = s
      \/ exists msg, pub = (s ++ [critical_record], inl (ValueError msg))).
Proof.
  intros priv pub. subst priv pub. split.
  - destruct (secret_I64_pure secret_exponent chain_code i is_hardened
                public_pair) as [r Hr].
    rewrite (secret_run _ _ _ _ _ _ _ (Hr s)).
    destruct r as [e|I64]; [now left|].
    destruct (from_bytes_32 _) as [e|IL]; [now left|].
    destruct (ORDER <=? IL); [right; eexists; reflexivity|].
    destruct (py_mod _ ORDER) as [e|k']; [now left|].
    destruct (k' =? 0); [right; eexists; reflexivity | now left].
  - rewrite public_run.
    destruct (struct_pack fmt_BE_l i) as [e|ib]; [now left|].
    destruct (public_pair_to_sec public_pair true) as [e|sec]; [now left|].
    cbv zeta.
    destruct (from_bytes_32 _) as [e|IL]; [now left|].
    destruct (point_of_pair public_pair) as [e|Q]; [now left|].
    destruct (Point_eqb _ INFINITY); [right; eexists; reflexivity|].
    destruct (ORDER <=? IL); [right; eexists; reflexivity | now left].
Qed.

(** X4.  An index outside the range of its packing format ends the call in
    [struct.error] before anything else is computed, with nothing logged
    and whatever the other arguments: outside [0, 2^32) for
    [subkey_secret_exponent_chain_code_pair] (so a negative index is
    refused there), outside [-2^31, 2^31) for
    [subkey_public_pair_chain_code_pair]. *)
Theorem index_out_of_range_raises_struct_error
  (secret_exponent : Z) (chain_code : bytes) (i : Z) (is_hardened : bool)
  (public_pair : pyval) (s : logstate) :
  (~ 0 <= i < 2 ^ 32 ->
   exists msg,
     subkey_secret_exponent_chain_code_pair
       secret_exponent chain_code i is_hardened public_pair s
     = (s, inl (StructError msg)))
  /\ (~ - 2 ^ 31 <= i < 2 ^ 31 ->
      exists msg,
        subkey_public_pair_chain_code_pair public_pair chain_code i s
        = (s, inl (StructError msg))).
Proof.
  split; intros Hi.
  - destruct (struct_pack_L_outside i Hi) as [msg Hp]. exists msg.
    unfold subkey_secret_exponent_chain_code_pair, subkey_secret_I64,
      bind, lift.
    now rewrite Hp.
  - destruct (struct_pack_l_outside i Hi) as [msg Hp]. exists msg.
    now rewrite public_run, Hp.
Qed.

(** X12.  [subkey_public_pair_chain_code_pair] returns only for a public
    pair that is a 2-tuple: for [None], an integer or a tuple of another
    length the call raises (in the point codec or at the unpacking of line
    136) and logs nothing. *)
Theorem public_requires_two_tuple
  (public_pair : pyval) (chain_code : bytes) (i : Z) (s s' : logstate)
  (r : result (pyval * bytes)) :
  (forall x y, public_pair <> PyTuple [x; y]) ->
  subkey_public_pair_chain_code_pair public_pair chain_code i s = (s', r) ->
  s' = s /\ exists e, r = inl e.
Proof.
  intros Hpp Hrun. rewrite public_run in Hrun.
  assert (Hu : exists e, point_of_pair public_pair = inl e).
  { unfold point_of_pair, unpack2.
    destruct public_pair as [|n|[|x [|y [|z l]]]];
      try (eexists; reflexivity).
    exfalso. apply (Hpp x y). reflexivity. }
  destruct Hu as [e0 Hu]. rewrite Hu in Hrun.
  destruct (struct_pack fmt_BE_l i) as [e|ib];
    [injection Hrun as <- <-; split; [reflexivity | eexists; reflexivity]|].
  destruct (public_pair_to_sec public_pair true) as [e|sec];
    [injection Hrun as <- <-; split; [reflexivity | eexists; reflexivity]|].
  cbv zeta in Hrun.
  destruct (from_bytes_32 _) as [e|IL];
    injection Hrun as <- <-; split; try reflexivity; eexists; reflexivity.
Qed.

(** X8.  A failing run of [subkey_public_pair_chain_code_pair] that logged
    anything logged the one critical record and raised [ValueError] with
    one of two texts, fixed by the index and the order: the point that the
    text of line 142 prints is always the point at infinity, never the
    coordinates of a key. *)
Theorem public_failure_text {HL : HelperLaws prim}
  (public_pair : pyval) (chain_code : bytes) (i : Z) (s s' : logstate)
  (e : exn) :
  subkey_public_pair_chain_code_pair public_pair chain_code i s
  = (s', inl e) ->
  s' = s
  \/ (s' = s ++ [critical_record]
      /\ (e = ValueError ("bad derviation: K_" ++ str_int i ++ " == "
                            ++ Point_str INFINITY)
          \/ e = ValueError ("bad derviation: I_L >= " ++ str_int ORDER))).
Proof.
  intros Hrun. rewrite public_run in Hrun.
  destruct (struct_pack fmt_BE_l i) as [e0|ib]; [left; congruence|].
  destruct (public_pair_to_sec public_pair true) as [e0|sec];
    [left; congruence|].
  cbv zeta in Hrun.
  destruct (from_bytes_32 _) as [e0|IL]; [left; congruence|].
  destruct (point_of_pair public_pair) as [e0|Q]; [left; congruence|].
  destruct (Point_eqb _ INFINITY) eqn:Einf.
  - apply Point_eqb_INFINITY in Einf. rewrite Einf in Hrun.
    injection Hrun as <- <-. right. split; [reflexivity | now left].
  - destruct (ORDER <=? IL); [|discriminate].
    injection Hrun as <- <-. right. split; [reflexivity | now right].
Qed.

(** ** What a normal derivation shares with the public side *)

(** X6.  A non-hardened child gives its parent away: when the private,
    non-hardened derivation of a secret exponent in [0, ORDER) returns, the
    digest [I] is the one anybody computes from the parent's public pair,
    the chain code and the index, the new chain code is [I[32:64]], and the
    parent's secret exponent is [(new_secret_exponent - I_L) mod ORDER]. *)
Theorem normal_child_reveals_parent {HL : HelperLaws prim}
  (secret_exponent : Z) (chain_code : bytes) (i : Z) (s s' : logstate)
  (new_secret_exponent : Z) (new_chain_code : bytes) :
  0 <= secret_exponent < ORDER ->
  subkey_secret_exponent_chain_code_pair
    secret_exponent chain_code i false PyNone s
  = (s', inr (new_secret_exponent, new_chain_code)) ->
  exists I64,
    ckd_pub_I (Point_pair (Point_rmul secret_exponent generator_secp256k1))
      chain_code i = Some I64
    /\ new_chain_code = slice 32 64 I64
    /\ secret_exponent = (new_secret_exponent - I_L I64) mod ORDER.
Proof.
  intros Hk Hrun.
  destruct (secret_run_returns _ _ _ _ _ _ _ _ _ Hrun)
    as (I64 & IL & HI & HF & _ & Hn & Hk' & _ & Hc & _).
  exists I64.
  assert (Hl : List.length I64 = 64%nat).
  { destruct (secret_I64_digest _ _ _ _ _ _ _ _ HI) as [data ->].
    apply hmac_sha512_length. }
  unfold subkey_secret_I64, bind, lift, ret in HI.
  destruct (struct_pack fmt_BE_L i) as [e|ib] eqn:Ep; [discriminate|].
  apply struct_pack_L_inr in Ep. destruct Ep as [_ ->].
  rewrite public_pair_for_secret_exponent_pair in HI.
  unfold ckd_pub_I.
  destruct (public_pair_to_sec _ true) as [e|sec]; [discriminate|].
  assert (HI' : hmac_sha512 chain_code (sec ++ be_bytes 4 i) = I64)
    by congruence.
  split; [now rewrite HI'|].
  split; [now rewrite slice_32_64|].
  rewrite (from_bytes_32_I_L _ Hl) in HF.
  assert (HIL : IL = I_L I64) by congruence. subst IL.
  rewrite Hk', Zminus_mod_idemp_l.
  replace (I_L I64 + secret_exponent - I_L I64) with secret_exponent by ring.
  symmetry. apply Z.mod_small. exact Hk.
Qed.

(** X11.  The public pair a caller supplies is used as it is, never checked
    against the secret exponent: two non-hardened runs with the same
    supplied pair, chain code and index and any two secret exponents, when
    both return, return the same chain code and shift their secret
    exponents by the same amount modulo the order. *)
Theorem supplied_public_pair_fixes_shift
  (secret_exponent1 secret_exponent2 : Z) (chain_code : bytes) (i : Z)
  (public_pair : pyval) (s1 s2 s1' s2' : logstate)
  (child1 child2 : Z) (chain_code1 chain_code2 : bytes) :
  public_pair <> PyNone ->
  subkey_secret_exponent_chain_code_pair
    secret_exponent1 chain_code i false public_pair s1
  = (s1', inr (child1, chain_code1)) ->
  subkey_secret_exponent_chain_code_pair
    secret_exponent2 chain_code i false public_pair s2
  = (s2', inr (child2, chain_code2)) ->
  chain_code1 = chain_code2
  /\ (child1 - secret_exponent1) mod ORDER
     = (child2 - secret_exponent2) mod ORDER.
Proof.
  intros Hpp H1 H2.
  destruct (secret_run_returns _ _ _ _ _ _ _ _ _ H1)
    as (I1 & IL1 & HI1 & HF1 & _ & _ & -> & _ & -> & _).
  destruct (secret_run_returns _ _ _ _ _ _ _ _ _ H2)
    as (I2 & IL2 & HI2 & HF2 & _ & _ & -> & _ & -> & _).
  pose proof (secret_I64_supplied_pair _ secret_exponent2 _ _ _ _ s2 _
                Hpp HI1) as HI2'.
  assert (E : I2 = I1) by congruence. subst I2.
  assert (E : IL2 = IL1) by congruence. subst IL2.
  split; [reflexivity|].
  rewrite !Zminus_mod_idemp_l. f_equal. ring.
Qed.

(** X9.  The public derivation takes a negative index as its two's
    complement: for [-2^31 <= i < 0] and a secret exponent in
    [1, ORDER - 1], the public run on the pair of the secret exponent with
    index [i] returns exactly when the private, non-hardened run with index
    [i + 2^32] returns, and then returns the public pair of that private
    child with the same chain code. *)
Theorem public_negative_index_wraps
  {HL : HelperLaws prim} {GL : GroupLaws prim}
  (secret_exponent : Z) (chain_code : bytes) (i : Z) (s : logstate) :
  0 < secret_exponent < ORDER ->
  - 2 ^ 31 <= i < 0 ->
  let pub :=
    subkey_public_pair_chain_code_pair
      (Point_pair (Point_rmul secret_exponent generator_secp256k1))
      chain_code i s in
  let priv :=
    subkey_secret_exponent_chain_code_pair
      secret_exponent chain_code (i + 2 ^ 32) false PyNone s in
  ((exists r, outcome pub = inr r) <-> (exists r, outcome priv = inr r))
  /\ (forall new_secret_exponent new_chain_code,
        outcome priv = inr (new_secret_exponent, new_chain_code) ->
        outcome pub
        = inr (Point_pair
                 (Point_rmul new_secret_exponent generator_secp256k1),
               new_chain_code)).
Proof.
  intros Hk Hi pub priv.
  assert (Hm : i mod 2 ^ 32 = i + 2 ^ 32).
  { symmetry. apply (Z.mod_unique i (2 ^ 32) (-1)); lia. }
  assert (Hpub : struct_pack fmt_BE_l i = inr (be_bytes 4 (i + 2 ^ 32))).
  { rewrite struct_pack_l_signed by lia. now rewrite Hm. }
  assert (Hpriv : struct_pack fmt_BE_L (i + 2 ^ 32)
                  = inr (be_bytes 4 (i + 2 ^ 32)))
    by (apply struct_pack_L_range; lia).
  destruct (public_matches_private_bytes secret_exponent chain_code
              i (i + 2 ^ 32) _ s Hk Hpub Hpriv) as [Hfwd Hbwd].
  fold pub in Hfwd, Hbwd. fold priv in Hfwd, Hbwd.
  split; [split|].
  - intros [r Hr]. destruct pub as [s' o] eqn:E. cbn [outcome snd] in Hr.
    subst o. destruct (Hbwd r s' eq_refl) as [child Hc].
    exists child. now rewrite Hc.
  - intros [[k' c'] Hr]. destruct priv as [s' o] eqn:E.
    cbn [outcome snd] in Hr. subst o.
    rewrite (Hfwd k' c' s' eq_refl). eexists; reflexivity.
  - intros k' c' Hr. destruct priv as [s' o] eqn:E.
    cbn [outcome snd] in Hr. subst o.
    now rewrite (Hfwd k' c' s' eq_refl).
Qed.

(** X10.  Derivations compose: for a secret exponent in [1, ORDER - 1] and
    non-hardened indices [i] and [j], when the private derivation returns a
    child and the private derivation of that child returns a grandchild,
    the public derivation from the parent's public pair returns the child's
    public pair and chain code, and the public derivation from those
    returns the grandchild's public pair and chain code. *)
Theorem public_grandchild_matches_private_grandchild
  {HL : HelperLaws prim} {GL : GroupLaws prim}
  (secret_exponent : Z) (chain_code : bytes) (i j : Z) (s s1 s2 : logstate)
  (child grandchild : Z) (child_chain_code grandchild_chain_code : bytes) :
  0 < secret_exponent < ORDER ->
  0 <= i < 2 ^ 31 ->
  0 <= j < 2 ^ 31 ->
  subkey_secret_exponent_chain_code_pair
    secret_exponent chain_code i false PyNone s
  = (s1, inr (child, child_chain_code)) ->
  subkey_secret_exponent_chain_code_pair
    child child_chain_code j false PyNone s1
  = (s2, inr (grandchild, grandchild_chain_code)) ->
  exists child_pair,
    subkey_public_pair_chain_code_pair
      (Point_pair (Point_rmul secret_exponent generator_secp256k1))
      chain_code i s
    = (s, inr (child_pair, child_chain_code))
    /\ subkey_public_pair_chain_code_pair child_pair child_chain_code j s
       = (s, inr (Point_pair (Point_rmul grandchild generator_secp256k1),
                  grandchild_chain_code)).
Proof.
  intros Hk Hi Hj H1 H2.
  assert (Hn : 0 < ORDER) by lia.
  destruct (secret_run_returns _ _ _ _ _ _ _ _ _ H1)
    as (_ & IL1 & _ & _ & _ & _ & Hc1 & Hz1 & _ & ->).
  destruct (secret_run_returns _ _ _ _ _ _ _ _ _ H2)
    as (_ & _ & _ & _ & _ & _ & _ & _ & _ & ->).
  assert (Hchild : 0 < child < ORDER).
  { pose proof (Z.mod_pos_bound (IL1 + secret_exponent) ORDER Hn). lia. }
  exists (Point_pair (Point_rmul child generator_secp256k1)). split.
  - apply (proj1 (public_matches_private_bytes secret_exponent chain_code
                    i i _ s Hk (struct_pack_l_range i Hi)
                    (struct_pack_L_range i ltac:(lia))) _ _ _ H1).
  - apply (proj1 (public_matches_private_bytes child child_chain_code
                    j j _ s Hchild (struct_pack_l_range j Hj)
                    (struct_pack_L_range j ltac:(lia))) _ _ _ H2).
Qed.

End Further.

(** ** The further properties at work on the small instance *)

(** The index -1 packs, signed, to [ff ff ff ff], which reads 2^32 - 1. *)
Lemma index_bytes_decode_witness :
  struct_pack fmt_BE_l (-1) = inr [xff; xff; xff; xff]
  /\ List.length [xff; xff; xff; xff] = 4%nat
  /\ be_int [xff; xff; xff; xff] = (-1) mod 2 ^ 32.
Proof.
  assert (Hp : struct_pack fmt_BE_l (-1) = inr [xff; xff; xff; xff])
    by reflexivity.
  split; [exact Hp|].
  exact (index_bytes_decode fmt_BE_l (-1) [xff; xff; xff; xff] Hp).
Defined.

Lemma private_child_in_range_witness :
  (0 < ORDER (prim := Tiny.prims)
   /\ subkey_secret_exponent_chain_code_pair (prim := Tiny.prims)
        3 [x02] 0 false PyNone []
      = ([], inr (5, be_bytes 32 13)))
  /\ 0 < 5 < ORDER (prim := Tiny.prims).
Proof.
  assert (Hn : 0 < ORDER (prim := Tiny.prims)) by reflexivity.
  assert (Hrun : subkey_secret_exponent_chain_code_pair (prim := Tiny.prims)
                   3 [x02] 0 false PyNone []
                 = ([], inr (5, be_bytes 32 13)))
    by (vm_compute; reflexivity).
  split; [split; assumption|].
  exact (private_child_in_range (prim := Tiny.prims)
           3 [x02] 0 false PyNone [] [] 5 (be_bytes 32 13) Hn Hrun).
Defined.

Lemma child_chain_code_length_witness :
  (subkey_secret_exponent_chain_code_pair (prim := Tiny.prims)
     3 [x02] 0 false (PyTuple [PyInt 11; PyInt 8]) []
   = ([], inr (5, be_bytes 32 13))
   /\ subkey_public_pair_chain_code_pair (prim := Tiny.prims)
        (PyTuple [PyInt 11; PyInt 8]) [x02] 0 []
      = ([], inr (PyTuple [PyInt 8; PyInt 8], be_bytes 32 13)))
  /\ List.length (be_bytes 32 13) = 32%nat.
Proof.
  assert (H1 : subkey_secret_exponent_chain_code_pair (prim := Tiny.prims)
                 3 [x02] 0 false (PyTuple [PyInt 11; PyInt 8]) []
               = ([], inr (5, be_bytes 32 13)))
    by (vm_compute; reflexivity).
  assert (H2 : subkey_public_pair_chain_code_pair (prim := Tiny.prims)
                 (PyTuple [PyInt 11; PyInt 8]) [x02] 0 []
               = ([], inr (PyTuple [PyInt 8; PyInt 8], be_bytes 32 13)))
    by (vm_compute; reflexivity).
  split; [split; assumption|].
  exact (proj1 (child_chain_code_length (prim := Tiny.prims)
                  (HL := Tiny_helper_laws)
                  3 [x02] 0 false (PyTuple [PyInt 11; PyInt 8]) [] [] []
                  5 (PyTuple [PyInt 8; PyInt 8])
                  (be_bytes 32 13) (be_bytes 32 13)) H1).
Defined.

Lemma public_child_is_finite_witness :
  subkey_public_pair_chain_code_pair (prim := Tiny.prims)
    (PyTuple [PyInt 11; PyInt 8]) [x02] 0 []
  = ([], inr (PyTuple [PyInt 8; PyInt 8], be_bytes 32 13))
  /\ exists the_point : Tiny.point,
       the_point <> None /\ PyTuple [PyInt 8; PyInt 8] = Tiny.pair the_point.
Proof.
  assert (Hrun : subkey_public_pair_chain_code_pair (prim := Tiny.prims)
                   (PyTuple [PyInt 11; PyInt 8]) [x02] 0 []
                 = ([], inr (PyTuple [PyInt 8; PyInt 8], be_bytes 32 13)))
    by (vm_compute; reflexivity).
  split; [exact Hrun|].
  exact (public_child_is_finite (prim := Tiny.prims) (HL := Tiny_helper_laws)
           _ _ _ _ _ _ _ Hrun).
Defined.

(** The index -1 is outside [">L"] and the index 2^31 outside [">l"]. *)
Lemma index_out_of_range_raises_struct_error_witness :
  (~ 0 <= -1 < 2 ^ 32 /\ ~ - 2 ^ 31 <= 2147483648 < 2 ^ 31)
  /\ (exists msg,
        subkey_secret_exponent_chain_code_pair (prim := Tiny.prims)
          3 [x02] (-1) true PyNone []
        = ([], inl (StructError msg)))
  /\ (exists msg,
        subkey_public_pair_chain_code_pair (prim := Tiny.prims)
          PyNone [x02] 2147483648 []
        = ([], inl (StructError msg))).
Proof.
  assert (H1 : ~ 0 <= -1 < 2 ^ 32) by lia.
  assert (H2 : ~ - 2 ^ 31 <= 2147483648 < 2 ^ 31) by lia.
  split; [split; assumption|].
  split.
  - exact (proj1 (index_out_of_range_raises_struct_error (prim := Tiny.prims)
                    3 [x02] (-1) true PyNone []) H1).
  - exact (proj2 (index_out_of_range_raises_struct_error (prim := Tiny.prims)
                    3 [x02] 2147483648 true PyNone []) H2).
Defined.

(** [None] in place of the public pair: the point codec raises. *)
Lemma public_requires_two_tuple_witness :
  ((forall x y, PyNone <> PyTuple [x; y])
   /\ subkey_public_pair_chain_code_pair (prim := Tiny.prims)
        PyNone [x02] 0 []
      = ([], inl (TypeError "unsupported operand type(s)")))
  /\ ([] : logstate) = []
  /\ exists e, inl (TypeError "unsupported operand type(s)")
               = (inl e : result (pyval * bytes)).
Proof.
  assert (Hpp : forall x y, PyNone <> PyTuple [x; y])
    by (intros x y; discriminate).
  assert (Hrun : subkey_public_pair_chain_code_pair (prim := Tiny.prims)
                   PyNone [x02] 0 []
                 = ([], inl (TypeError "unsupported operand type(s)")))
    by reflexivity.
  split; [split; assumption|].
  exact (public_requires_two_tuple (prim := Tiny.prims)
           PyNone [x02] 0 [] [] _ Hpp Hrun).
Defined.

(** 4 * G + (11, 8) is the point at infinity: the text names it. *)
Lemma public_failure_text_witness :
  subkey_public_pair_chain_code_pair (prim := Tiny.prims)
    (PyTuple [PyInt 11; PyInt 8]) [x04] 0 []
  = ([critical_record],
     inl (ValueError "bad derviation: K_0 == infinity"))
  /\ ([critical_record] = []
      \/ ([critical_record] = [] ++ [critical_record]
          /\ (ValueError "bad derviation: K_0 == infinity"
              = ValueError ("bad derviation: K_" ++ str_int 0 ++ " == "
                              ++ Point_str (Primitives := Tiny.prims)
                                   INFINITY)
              \/ ValueError "bad derviation: K_0 == infinity"
                 = ValueError ("bad derviation: I_L >= "
                                 ++ str_int (ORDER (prim := Tiny.prims)))))).
Proof.
  assert (Hrun : subkey_public_pair_chain_code_pair (prim := Tiny.prims)
                   (PyTuple [PyInt 11; PyInt 8]) [x04] 0 []
                 = ([critical_record],
                    inl (ValueError "bad derviation: K_0 == infinity")))
    by (vm_compute; reflexivity).
  split; [exact Hrun|].
  exact (public_failure_text (prim := Tiny.prims) (HL := Tiny_helper_laws)
           _ _ _ _ _ _ Hrun).
Defined.

(** The child 5 of the secret exponent 3 under [I_L = 2]: 3 = (5 - 2) mod 7,
    with [I] computed from the public pair [(11, 8)]. *)
Lemma normal_child_reveals_parent_witness :
  (0 <= 3 < ORDER (prim := Tiny.prims)
   /\ subkey_secret_exponent_chain_code_pair (prim := Tiny.prims)
        3 [x02] 0 false PyNone []
      = ([], inr (5, be_bytes 32 13)))
  /\ exists I64,
       ckd_pub_I (prim := Tiny.prims) (PyTuple [PyInt 11; PyInt 8]) [x02] 0
       = Some I64
       /\ be_bytes 32 13 = slice 32 64 I64
       /\ 3 = (5 - I_L I64) mod 7.
Proof.
  assert (Hk : 0 <= 3 < ORDER (prim := Tiny.prims))
    by (vm_compute; split; [discriminate | reflexivity]).
  assert (Hrun : subkey_secret_exponent_chain_code_pair (prim := Tiny.prims)
                   3 [x02] 0 false PyNone []
                 = ([], inr (5, be_bytes 32 13)))
    by (vm_compute; reflexivity).
  split; [split; assumption|].
  exact (normal_child_reveals_parent (prim := Tiny.prims)
           (HL := Tiny_helper_laws) 3 [x02] 0 [] [] 5 (be_bytes 32 13)
           Hk Hrun).
Defined.

(** The pair [(11, 8)] of 3 * G supplied with the secret exponents 3 and 1:
    both children are shifted by 2. *)
Lemma supplied_public_pair_fixes_shift_witness :
  (PyTuple [PyInt 11; PyInt 8] <> PyNone
   /\ subkey_secret_exponent_chain_code_pair (prim := Tiny.prims)
        3 [x02] 0 false (PyTuple [PyInt 11; PyInt 8]) []
      = ([], inr (5, be_bytes 32 13))
   /\ subkey_secret_exponent_chain_code_pair (prim := Tiny.prims)
        1 [x02] 0 false (PyTuple [PyInt 11; PyInt 8]) []
      = ([], inr (3, be_bytes 32 13)))
  /\ be_bytes 32 13 = be_bytes 32 13
  /\ (5 - 3) mod 7 = (3 - 1) mod 7.
Proof.
  assert (Hpp : PyTuple [PyInt 11; PyInt 8] <> PyNone) by discriminate.
  assert (H1 : subkey_secret_exponent_chain_code_pair (prim := Tiny.prims)
                 3 [x02] 0 false (PyTuple [PyInt 11; PyInt 8]) []
               = ([], inr (5, be_bytes 32 13)))
    by (vm_compute; reflexivity).
  assert (H2 : subkey_secret_exponent_chain_code_pair (prim := Tiny.prims)
                 1 [x02] 0 false (PyTuple [PyInt 11; PyInt 8]) []
               = ([], inr (3, be_bytes 32 13)))
    by (vm_compute; reflexivity).
  split; [split; [exact Hpp | split; assumption]|].
  exact (supplied_public_pair_fixes_shift (prim := Tiny.prims)
           3 1 [x02] 0 (PyTuple [PyInt 11; PyInt 8]) [] [] [] []
           5 3 (be_bytes 32 13) (be_bytes 32 13) Hpp H1 H2).
Defined.

(** The public derivation with index -1 gives the public pair of the private
    child with index 2^32 - 1. *)
Lemma public_negative_index_wraps_witness :
  (0 < 3 < ORDER (prim := Tiny.prims) /\ - 2 ^ 31 <= -1 < 0)
  /\ outcome
       (subkey_public_pair_chain_code_pair (prim := Tiny.prims)
          (PyTuple [PyInt 11; PyInt 8]) [x02] (-1) [])
     = inr (PyTuple [PyInt 8; PyInt 8], be_bytes 32 1033).
Proof.
  assert (Hk : 0 < 3 < ORDER (prim := Tiny.prims))
    by (vm_compute; split; reflexivity).
  assert (Hi : - 2 ^ 31 <= -1 < 0) by lia.
  split; [split; assumption|].
  apply (proj2 (public_negative_index_wraps
                  (prim := Tiny.prims) (HL := Tiny_helper_laws)
                  (GL := Tiny_group_laws) 3 [x02] (-1) [] Hk Hi) 5).
  vm_compute. reflexivity.
Defined.

(** 3 has the child 5 at index 243 and the grandchild 6 at index 0; the
    public side follows with the pairs [(8, 8)] and [(7, 8)]. *)
Lemma public_grandchild_matches_private_grandchild_witness :
  (0 < 3 < ORDER (prim := Tiny.prims)
   /\ 0 <= 243 < 2 ^ 31 /\ 0 <= 0 < 2 ^ 31
   /\ subkey_secret_exponent_chain_code_pair (prim := Tiny.prims)
        3 [x02] 243 false PyNone []
      = ([], inr (5, be_bytes 32 256))
   /\ subkey_secret_exponent_chain_code_pair (prim := Tiny.prims)
        5 (be_bytes 32 256) 0 false PyNone []
      = ([], inr (6, be_bytes 32 10)))
  /\ exists child_pair,
       subkey_public_pair_chain_code_pair (prim := Tiny.prims)
         (PyTuple [PyInt 11; PyInt 8]) [x02] 243 []
       = ([], inr (child_pair, be_bytes 32 256))
       /\ subkey_public_pair_chain_code_pair (prim := Tiny.prims)
            child_pair (be_bytes 32 256) 0 []
          = ([], inr (PyTuple [PyInt 7; PyInt 8], be_bytes 32 10)).
Proof.
  assert (Hk : 0 < 3 < ORDER (prim := Tiny.prims))
    by (vm_compute; split; reflexivity).
  assert (Hi : 0 <= 243 < 2 ^ 31) by lia.
  assert (Hj : 0 <= 0 < 2 ^ 31) by lia.
  assert (H1 : subkey_secret_exponent_chain_code_pair (prim := Tiny.prims)
                 3 [x02] 243 false PyNone []
               = ([], inr (5, be_bytes 32 256)))
    by (vm_compute; reflexivity).
  assert (H2 : subkey_secret_exponent_chain_code_pair (prim := Tiny.prims)
                 5 (be_bytes 32 256) 0 false PyNone []
               = ([], inr (6, be_bytes 32 10)))
    by (vm_compute; reflexivity).
  split; [repeat (split; [assumption|]); assumption|].
  exact (public_grandchild_matches_private_grandchild
           (prim := Tiny.prims) (HL := Tiny_helper_laws)
           (GL := Tiny_group_laws)
           3 [x02] 243 0 [] [] [] 5 6 (be_bytes 32 256) (be_bytes 32 10)
           Hk Hi Hj H1 H2).
Defined.
